(** * Fingrid Easy Setup: the poll cycle and the value presenters

    A shallow embedding of
      - [coordinator.py]: [_async_fetch_dataset] and [_async_update_data],
      - [sensor.py]: [available], [_handle_coordinator_update] and the three
        [_update_state] methods,
    together with the properties of the fetch cycle and of the presenters.

    Python dictionaries keyed by strings whose values are inspected by key
    ([data_results], [_attr_extra_state_attributes], the state tables) are
    finite maps; a decoded JSON object keeps its items in a list, as the
    decoder produced them.  Exceptions are an enumeration of the classes the
    code names, and a computation that may raise returns a [res]. *)

From Stdlib Require Import ZArith String List Bool Lia.
From Stdlib Require Import Floats.SpecFloat.
From stdpp Require Import base option gmap strings list fin_maps.

Local Open Scope Z_scope.

(** ** Python values *)

Module Py.

#[local] Set Warnings "-register-all".

(** The values [json.loads] can produce.  A float is an IEEE 754 value given
    by its sign, mantissa and exponent ([spec_float]); the decoder accepts
    the literals [NaN] and [Infinity], and an out-of-range literal such as
    [1e999] decodes to an infinity. *)
Inductive pyval : Type :=
| PyNone
| PyBool (b : bool)
| PyInt (z : Z)
| PyFloat (f : spec_float)
| PyStr (s : string)
| PyList (l : list pyval)
| PyDict (d : list (string * pyval)).

(** [d.get(k)] / [d[k]] on a decoded object. *)
Fixpoint dict_get (k : string) (d : list (string * pyval)) : option pyval :=
  match d with
  | [] => None
  | (k', v) :: d' => if String.eqb k k' then Some v else dict_get k d'
  end.

(** [k in d] *)
Definition dict_mem (k : string) (d : list (string * pyval)) : bool :=
  match dict_get k d with Some _ => true | None => false end.

(** [d.get(k)], which is [None] for a missing key. *)
Definition dict_get_default (k : string) (d : list (string * pyval)) : pyval :=
  match dict_get k d with Some v => v | None => PyNone end.

(** [v is not None] *)
Definition is_not_None (v : pyval) : bool :=
  match v with PyNone => false | _ => true end.

(** Truth value of a float: everything but a zero, NaN included. *)
Definition float_truthy (f : spec_float) : bool :=
  match f with S754_zero _ => false | _ => true end.

(** [bool(v)], the test an [if v] performs. *)
Definition truthy (v : pyval) : bool :=
  match v with
  | PyNone => false
  | PyBool b => b
  | PyInt z => negb (z =? 0)
  | PyFloat f => float_truthy f
  | PyStr s => negb (String.eqb s "")
  | PyList l => match l with [] => false | _ => true end
  | PyDict d => match d with [] => false | _ => true end
  end.

(** The exception classes the two modules name or can meet.
    [UnboundLocalError] is the subclass of [NameError] raised on reading a
    local variable that was never assigned. *)
Inductive exn : Type :=
| FingridApiAuthError
| FingridApiRateLimitError
| FingridApiError
| ClientError
| TimeoutError
| ConfigEntryAuthFailed
| UpdateFailed
| NameError
| UnboundLocalError
| TypeError
| AttributeError
| ValueError
| OverflowError
| CancelledError.

(** [isinstance(e, Exception)]: every class above derives from [Exception]
    except [asyncio.CancelledError], which derives from [BaseException]. *)
Definition is_Exception (e : exn) : bool :=
  match e with CancelledError => false | _ => true end.

(** [isinstance(e, NameError)] *)
Definition is_NameError (e : exn) : bool :=
  match e with NameError | UnboundLocalError => true | _ => false end.

(** The outcome of a call: a returned value or a raised exception. *)
Inductive res (A : Type) : Type :=
| Ok (a : A)
| Raise (e : exn).
Arguments Ok {A} a.
Arguments Raise {A} e.

Definition res_to_option {A : Type} (r : res A) : option A :=
  match r with Ok a => Some a | Raise _ => None end.

(** [int(f)] for a float: truncation towards zero; NaN and the infinities
    raise. *)
Definition int_of_float (f : spec_float) : res Z :=
  match f with
  | S754_zero _ => Ok 0
  | S754_infinity _ => Raise OverflowError
  | S754_nan => Raise ValueError
  | S754_finite s m e =>
      let mag := if 0 <=? e then Z.pos m * 2 ^ e else Z.pos m / 2 ^ (- e) in
      Ok (if s then - mag else mag)
  end.

(** [isinstance(v, (int, float))]; [bool] is a subclass of [int]. *)
Definition is_int_or_float (v : pyval) : bool :=
  match v with PyBool _ | PyInt _ | PyFloat _ => true | _ => false end.

(** [int(v)] for the values that pass [is_int_or_float]; on the others the
    code never calls it. *)
Definition py_int (v : pyval) : res Z :=
  match v with
  | PyBool b => Ok (if b then 1 else 0)
  | PyInt z => Ok z
  | PyFloat f => int_of_float f
  | _ => Raise TypeError
  end.

End Py.
Import Py.

(** ** The fetch cycle ([coordinator.py]) *)

Module Coordinator.

(** What the HTTP session hands back for one GET: the status line, and the
    outcomes of [await response.json()] and [await response.text()], either
    of which may raise (a body that is not JSON, a broken connection). *)
Record response : Type := {
  status : Z;
  json : res pyval;
  text : res string
}.

(** The only effect of a cycle is its sequence of GET requests; the sleeps
    and the log lines are left out.  A computation threads the list of
    dataset ids requested so far and either returns or raises. *)
Definition M (A : Type) : Type := list string -> res A * list string.

Definition ret {A : Type} (a : A) : M A := fun log => (Ok a, log).

Definition raise {A : Type} (e : exn) : M A := fun log => (Raise e, log).

Definition mbind {A B : Type} (m : M A) (k : A -> M B) : M B :=
  fun log =>
    match m log with
    | (Ok a, log') => k a log'
    | (Raise e, log') => (Raise e, log')
    end.

(** [try: m  except ... : h e  else: els a] -- the handlers guard the body
    [m] only, not the [else] suite. *)
Definition try_except_else {A B : Type}
    (m : M A) (h : exn -> M B) (els : A -> M B) : M B :=
  fun log =>
    match m log with
    | (Ok a, log') => els a log'
    | (Raise e, log') => h e log'
    end.

Definition try_except {A : Type} (m : M A) (h : exn -> M A) : M A :=
  try_except_else m h ret.

Definition lift {A : Type} (r : res A) : M A := fun log => (r, log).

Notation "x <- m ;; k" := (mbind m (fun x => k))
  (at level 100, m at next level, right associativity, only parsing).

(** The local variables of [_async_update_data].  [result] is assigned only
    when a fetch returns, so it may still be unbound ([None]) when it is
    read. *)
Record locals : Type := {
  data_results : gmap string pyval;
  auth_failure_raised : bool;
  result : option pyval
}.

(** [data_results[dataset_id] = v] *)
Definition store (dataset_id : string) (v : pyval) (st : locals) : locals :=
  {| data_results := <[dataset_id := v]> (data_results st);
     auth_failure_raised := auth_failure_raised st;
     result := result st |}.

(** [auth_failure_raised = True] *)
Definition set_auth_failure_raised (st : locals) : locals :=
  {| data_results := data_results st;
     auth_failure_raised := true;
     result := result st |}.

(** [result = v] *)
Definition assign_result (v : pyval) (st : locals) : locals :=
  {| data_results := data_results st;
     auth_failure_raised := auth_failure_raised st;
     result := Some v |}.

(** [isinstance(v, E)] for an exception class [E]: [v] is a value a fetch
    returned, a decoded JSON value, never an exception object. *)
Definition isinstance_exception (v : pyval) : bool :=
  match v with
  | PyNone | PyBool _ | PyInt _ | PyFloat _ | PyStr _ | PyList _ | PyDict _ =>
      false
  end.

(** [not data_results]: the dict has no key at all. *)
Definition dict_is_empty (m : gmap string pyval) : bool :=
  bool_decide (size m = 0%nat).

Definition list_truthy {A : Type} (l : list A) : bool :=
  match l with [] => false | _ => true end.

Section Fetch.

(** The network: [net n dataset_id] is what the [n]-th GET of the cycle
    (counting from 0) meets when it asks for [dataset_id]: a response, or an
    exception raised by the client ([ClientError], [TimeoutError], ...). *)
Variable net : nat -> string -> res response.

(** [self.session.get(url, ...)] -- one request, appended to the log. *)
Definition session_get (dataset_id : string) : M response :=
  fun log => (net (List.length log) dataset_id, log ++ [dataset_id]).

(** The body of the [try] of [_async_fetch_dataset] (lines 75-104). *)
Definition fetch_try_body (dataset_id : string) : M pyval :=
  response <- session_get dataset_id ;;
  if status response =? 200 then
    api_response <- lift (json response) ;;
    match api_response with
    | PyDict d =>                                    (* isinstance(.., dict) *)
        match dict_get "data" d with                 (* "data" in ..        *)
        | Some (PyList (latest_entry :: _)) =>       (* a list, len > 0     *)
            ret latest_entry
        | _ => ret PyNone
        end
    | _ => ret PyNone
    end
  else if (status response =? 401) || (status response =? 403) then
    raise FingridApiAuthError
  else if status response =? 429 then
    raise FingridApiRateLimitError
  else
    response_text <- lift (text response) ;;
    raise FingridApiError.

(** [_async_fetch_dataset]: the [try] body under its three handlers.  The
    handlers guard the whole body, the three [raise] statements of lines 92,
    95 and 104 included. *)
Definition _async_fetch_dataset (dataset_id : string) : M pyval :=
  try_except (fetch_try_body dataset_id)
    (fun err =>
       match err with
       | ClientError => raise FingridApiError   (* except aiohttp.ClientError *)
       | TimeoutError => raise FingridApiError  (* except asyncio.TimeoutError *)
       | _ =>
           if is_Exception err
           then raise FingridApiError           (* except Exception *)
           else raise err
       end).

End Fetch.

Section Cycle.

(** [self._async_fetch_dataset], the method the loop calls; a test may
    replace it by a stub. *)
Variable fetch_dataset : string -> M pyval.

(** One iteration of the [for] loop of [_async_update_data]
    (lines 132-174). *)
Definition loop_body (dataset_id : string) (st : locals) : M locals :=
  st1 <- try_except_else (fetch_dataset dataset_id)
    (fun e =>
       match e with
       | FingridApiAuthError =>
           if negb (auth_failure_raised st)
           then raise ConfigEntryAuthFailed
           else ret (store dataset_id PyNone (set_auth_failure_raised st))
       | FingridApiRateLimitError | FingridApiError =>
           ret (store dataset_id PyNone st)
       | _ =>
           if is_Exception e
           then ret (store dataset_id PyNone st)
           else raise e
       end)
    (fun r =>
       let st' := assign_result r st in
       if is_not_None r
       then ret (store dataset_id r st')
       else ret (store dataset_id PyNone st')) ;;
  (* await asyncio.sleep(7) *)
  match result st1 with
  | None => raise UnboundLocalError
  | Some r =>
      if isinstance_exception r then                  (* FingridApiAuthError *)
        if negb (auth_failure_raised st1)
        then raise ConfigEntryAuthFailed
        else ret (store dataset_id PyNone (set_auth_failure_raised st1))
      else if isinstance_exception r then             (* rate limit, api *)
        ret (store dataset_id PyNone st1)
      else if isinstance_exception r then             (* Exception *)
        ret (store dataset_id PyNone st1)
      else if is_not_None r then
        ret (store dataset_id r st1)
      else
        ret (store dataset_id PyNone st1)
  end.

(** [for dataset_id in self.enabled_dataset_ids: ...] *)
Fixpoint for_each (ids : list string) (st : locals) : M locals :=
  match ids with
  | [] => ret st
  | dataset_id :: rest => st' <- loop_body dataset_id st ;; for_each rest st'
  end.

Definition initial_locals : locals :=
  {| data_results := ∅; auth_failure_raised := false; result := None |}.

(** [_async_update_data].  Line 180 reads the name [results], which the
    module never defines, before line 181 could raise [UpdateFailed]. *)
Definition _async_update_data (enabled_dataset_ids : list string)
    : M (gmap string pyval) :=
  st <- for_each enabled_dataset_ids initial_locals ;;
  if dict_is_empty (data_results st) && list_truthy enabled_dataset_ids then
    if negb (auth_failure_raised st)
    then raise NameError
    else ret (data_results st)
  else ret (data_results st).

End Cycle.

(** A whole cycle of the coordinator against a network, from an empty
    request log: its outcome and the requests it made. *)
Definition cycle (net : nat -> string -> res response)
    (enabled_dataset_ids : list string)
    : res (gmap string pyval) * list string :=
  _async_update_data (_async_fetch_dataset net) enabled_dataset_ids [].

(** A stub for [_async_fetch_dataset] that answers its [n]-th call with
    [script n dataset_id] and logs the call. *)
Definition scripted_fetch (script : nat -> string -> res pyval)
    (dataset_id : string) : M pyval :=
  fun log => (script (List.length log) dataset_id, log ++ [dataset_id]).

End Coordinator.

(** ** The value presenters ([sensor.py]) *)

Module Sensor.

Definition POWER_SYSTEM_STATE_MAP : gmap Z string :=
  list_to_map
    [ (1, "Normal"); (2, "Endangered"); (3, "Disturbed"); (4, "Blackout");
      (5, "Restoration") ].

Definition POWER_SYSTEM_STATE_UNKNOWN : string := "Unknown".

Definition ELECTRICITY_SHORTAGE_STATUS_MAP : gmap Z string :=
  list_to_map
    [ (0, "Normal"); (1, "Electricity shortage possible");
      (2, "High risk of electricity shortage"); (3, "Electricity shortage") ].

Definition ELECTRICITY_SHORTAGE_STATUS_UNKNOWN : string := "Unknown".

(** The three concrete sensor classes; [FingridGridFrequencySensor] inherits
    [_update_state] from the base class [FingridSensor]. *)
Inductive sensor_class : Type :=
| FingridPowerSystemStateSensor
| FingridGridFrequencySensor
| FingridElectricityShortageSensor.

(** The fields of a sensor object the presenters read or write. *)
Record sensor : Type := {
  class_of : sensor_class;
  _dataset_id : string;
  _attr_native_value : pyval;
  _attr_extra_state_attributes : gmap string pyval
}.

(** What a sensor sees of its coordinator: [last_update_success] (which is
    what [super().available] returns) and [data], the snapshot of the last
    successful cycle, [None] before the first one. *)
Record coordinator : Type := {
  last_update_success : bool;
  data : option (gmap string pyval)
}.

(** [self._attr_native_value = v] *)
Definition set_native_value (v : pyval) (s : sensor) : sensor :=
  {| class_of := class_of s;
     _dataset_id := _dataset_id s;
     _attr_native_value := v;
     _attr_extra_state_attributes := _attr_extra_state_attributes s |}.

(** [self._attr_extra_state_attributes[k] = v], and equally
    [self._attr_extra_state_attributes = {**old, k: v}]. *)
Definition set_attribute (k : string) (v : pyval) (s : sensor) : sensor :=
  {| class_of := class_of s;
     _dataset_id := _dataset_id s;
     _attr_native_value := _attr_native_value s;
     _attr_extra_state_attributes :=
       <[k := v]> (_attr_extra_state_attributes s) |}.

(** [FingridSensor.available] *)
Definition available (c : coordinator) (s : sensor) : bool :=
  last_update_success c &&
  match data c with
  | None => false                                  (* data is not None      *)
  | Some snapshot =>
      match snapshot !! _dataset_id s with
      | None => false                              (* _dataset_id in data   *)
      | Some v => is_not_None v                    (* data[..] is not None  *)
      end
  end.

(** [FingridSensor._update_state] (lines 113-126). *)
Definition FingridSensor_update_state
    (dataset_data : list (string * pyval)) (s : sensor) : res sensor :=
  let s1 := set_native_value (dict_get_default "value" dataset_data) s in
  match dict_get "endTime" dataset_data with
  | Some t => Ok (set_attribute "api_timestamp" t s1)
  | None =>
      match dict_get "startTime" dataset_data with
      | Some t => Ok (set_attribute "api_timestamp" t s1)
      | None => Ok s1
      end
  end.

(** [FingridPowerSystemStateSensor._update_state] (lines 149-159). *)
Definition FingridPowerSystemStateSensor_update_state
    (dataset_data : list (string * pyval)) (s : sensor) : res sensor :=
  let current_value := dict_get_default "value" dataset_data in
  if is_int_or_float current_value then
    match py_int current_value with
    | Raise e => Raise e
    | Ok numeric_value =>
        let description :=
          default POWER_SYSTEM_STATE_UNKNOWN
                  (POWER_SYSTEM_STATE_MAP !! numeric_value) in
        Ok (set_attribute "raw_value" (PyInt numeric_value)
              (set_native_value (PyStr description) s))
    end
  else Ok (set_native_value (PyStr POWER_SYSTEM_STATE_UNKNOWN) s).

(** [FingridElectricityShortageSensor._update_state] (lines 202-214). *)
Definition FingridElectricityShortageSensor_update_state
    (dataset_data : list (string * pyval)) (s : sensor) : res sensor :=
  let current_value := dict_get_default "value" dataset_data in
  if is_int_or_float current_value then
    match py_int current_value with
    | Raise e => Raise e
    | Ok numeric_value =>
        let description_text :=
          default ELECTRICITY_SHORTAGE_STATUS_UNKNOWN
                  (ELECTRICITY_SHORTAGE_STATUS_MAP !! numeric_value) in
        Ok (set_attribute "raw_value" (PyInt numeric_value)
              (set_native_value (PyStr description_text) s))
    end
  else Ok (set_native_value (PyStr ELECTRICITY_SHORTAGE_STATUS_UNKNOWN) s).

(** [self._update_state(dataset_data)], by the class of [self].  A raise
    ([int] of a NaN or of an infinity) happens before any field is written,
    so a [Raise] leaves the sensor as it was. *)
Definition _update_state
    (dataset_data : list (string * pyval)) (s : sensor) : res sensor :=
  match class_of s with
  | FingridPowerSystemStateSensor =>
      FingridPowerSystemStateSensor_update_state dataset_data s
  | FingridGridFrequencySensor =>
      FingridSensor_update_state dataset_data s
  | FingridElectricityShortageSensor =>
      FingridElectricityShortageSensor_update_state dataset_data s
  end.

(** [s1 in s2] for two strings. *)
Definition is_substring (s1 s2 : string) : bool :=
  match String.index 0 s1 s2 with Some _ => true | None => false end.

(** ["value" == v] *)
Definition eq_value_key (v : pyval) : bool :=
  match v with PyStr s => String.eqb "value" s | _ => false end.

(** [if dataset_data and "value" in dataset_data: self._update_state(..)]
    for whatever the snapshot holds.  Only a dict has [.get]; a number has
    no [in]. *)
Definition update_from (dataset_data : pyval) (s : sensor) : res sensor :=
  if truthy dataset_data then
    match dataset_data with
    | PyDict d => if dict_mem "value" d then _update_state d s else Ok s
    | PyStr t => if is_substring "value" t then Raise AttributeError else Ok s
    | PyList l => if existsb eq_value_key l then Raise AttributeError else Ok s
    | PyNone | PyBool _ | PyInt _ | PyFloat _ => Raise TypeError
    end
  else Ok s.

Definition snapshot_truthy (m : gmap string pyval) : bool :=
  negb (bool_decide (size m = 0%nat)).

(** [FingridSensor._handle_coordinator_update] (lines 93-111), up to the
    call of [async_write_ha_state]. *)
Definition _handle_coordinator_update (c : coordinator) (s : sensor)
    : res sensor :=
  match data c with
  | None => Ok s
  | Some snapshot =>
      if snapshot_truthy snapshot then
        match snapshot !! _dataset_id s with
        | Some dataset_data => update_from dataset_data s
        | None => Ok s
        end
      else Ok s
  end.

(** The state an entity shows. *)
Inductive presented : Type :=
| StateUnavailable
| StateOf (native_value : pyval).

(** What the host writes when the callback ends in
    [self.async_write_ha_state()]: Home Assistant shows "unavailable" for an
    entity whose [available] is false, and its native value otherwise. *)
Definition presented_state (c : coordinator) (s : sensor) : presented :=
  if available c s then StateOf (_attr_native_value s) else StateUnavailable.

End Sensor.

(** ** Sample data *)

Module Fixtures.
Import Coordinator Sensor.

Definition DATASET_ID_POWER_SYSTEM_STATE : string := "209".
Definition DATASET_ID_GRID_FREQUENCY : string := "177".
Definition DATASET_ID_ELECTRICITY_SHORTAGE_STATUS : string := "336".

(** [{"value": 4, "startTime": "...", "endTime": "..."}] *)
Definition entry_blackout : pyval :=
  PyDict [ ("value", PyInt 4);
           ("startTime", PyStr "2024-01-01T11:57:00Z");
           ("endTime", PyStr "2024-01-01T12:00:00Z") ].

(** A 200 response whose body decodes to [body]. *)
Definition ok_response (body : pyval) : response :=
  {| status := 200; json := Ok body; text := Ok "" |}.

(** A response with an error status and a body that is not JSON. *)
Definition error_response (code : Z) : response :=
  {| status := code; json := Raise ClientError; text := Ok "error" |}.

(** Every request is answered 200 with one data point. *)
Definition net_one_entry : nat -> string -> res response :=
  fun _ _ => Ok (ok_response (PyDict [("data", PyList [entry_blackout])])).

(** Every request is answered 200 with an empty [data] array. *)
Definition net_empty_data : nat -> string -> res response :=
  fun _ _ => Ok (ok_response (PyDict [("data", PyList [])])).

(** Every request is answered with the status [code]. *)
Definition net_status (code : Z) : nat -> string -> res response :=
  fun _ _ => Ok (error_response code).

(** The first request gets one data point, every later one the status
    [code]. *)
Definition net_entry_then_status (code : Z) : nat -> string -> res response :=
  fun n _ =>
    match n with
    | O => Ok (ok_response (PyDict [("data", PyList [entry_blackout])]))
    | S _ => Ok (error_response code)
    end.

(** A stub fetch that raises [FingridApiAuthError] on every call. *)
Definition script_auth_error : nat -> string -> res pyval :=
  fun _ _ => Raise FingridApiAuthError.

(** A stub fetch that returns one data point on its first call and raises
    [e] on every later one. *)
Definition script_entry_then (e : exn) : nat -> string -> res pyval :=
  fun n _ => match n with O => Ok entry_blackout | S _ => Raise e end.

(** A power-system sensor that showed "Blackout" with [raw_value] 4. *)
Definition sensor_after_blackout : sensor :=
  {| class_of := FingridPowerSystemStateSensor;
     _dataset_id := "209";
     _attr_native_value := PyStr "Blackout";
     _attr_extra_state_attributes := {[ "raw_value" := PyInt 4 ]} |}.

(** A coordinator whose last cycle succeeded with [snapshot]. *)
Definition coordinator_with (snapshot : gmap string pyval) : coordinator :=
  {| last_update_success := true; data := Some snapshot |}.

(** [2.5] and [-2.5] as floats: [5 * 2^-1]. *)
Definition float_2_5 : spec_float := S754_finite false 5 (-1).
Definition float_minus_2_5 : spec_float := S754_finite true 5 (-1).

Definition fresh_sensor (c : sensor_class) (dataset_id : string) : sensor :=
  {| class_of := c;
     _dataset_id := dataset_id;
     _attr_native_value := PyNone;
     _attr_extra_state_attributes := ∅ |}.

End Fixtures.

(** ** Vocabulary of the properties *)

Module Vocab.
Import Coordinator Sensor.

(** The shapes a decoded 200 body can have, and what each holds: a dict
    whose ["data"] is a non-empty list holds the first element; a value that
    is no dict, a dict without ["data"], a ["data"] that is no list, and an
    empty ["data"] list hold nothing. *)
Inductive body_shape : pyval -> option pyval -> Prop :=
| shape_first d x rest :
    dict_get "data" d = Some (PyList (x :: rest)) ->
    body_shape (PyDict d) (Some x)
| shape_no_dict v :
    (forall d, v <> PyDict d) -> body_shape v None
| shape_no_data_key d :
    dict_get "data" d = None -> body_shape (PyDict d) None
| shape_not_a_list d v :
    dict_get "data" d = Some v -> (forall l, v <> PyList l) ->
    body_shape (PyDict d) None
| shape_empty_list d :
    dict_get "data" d = Some (PyList []) -> body_shape (PyDict d) None.

(** An int, a bool, or a float that is neither NaN nor an infinity. *)
Definition is_finite_number (v : pyval) : bool :=
  match v with
  | PyBool _ | PyInt _ => true
  | PyFloat (S754_zero _) | PyFloat (S754_finite _ _ _) => true
  | _ => false
  end.

(** [n] is the float [f] cut off towards zero: [f] is a zero and [n = 0],
    or [f = (-1)^s * m * 2^e] and [n] has the sign of [f] and the magnitude
    [k] with [k <= m * 2^e < k + 1]. *)
Definition float_truncates_to (f : spec_float) (n : Z) : Prop :=
  match f with
  | S754_zero _ => n = 0
  | S754_finite s m e =>
      exists k, 0 <= k /\ n = (if s then - k else k) /\
        if 0 <=? e then k = Z.pos m * 2 ^ e
        else k * 2 ^ (- e) <= Z.pos m < (k + 1) * 2 ^ (- e)
  | _ => False
  end.

(** [n] is the number [v] truncated to an integer. *)
Definition truncates_to (v : pyval) (n : Z) : Prop :=
  match v with
  | PyBool b => n = (if b then 1 else 0)
  | PyInt z => n = z
  | PyFloat f => float_truncates_to f n
  | _ => False
  end.

(** Two calls in succession; a raise ends the sequence. *)
Definition twice (f : sensor -> res sensor) (s : sensor) : res sensor :=
  match f s with Ok s' => f s' | Raise e => Raise e end.

(** The dataset is absent from the snapshot: no key, or the value [None]. *)
Definition absent (snapshot : gmap string pyval) (dataset_id : string) : Prop :=
  snapshot !! dataset_id = None \/ snapshot !! dataset_id = Some PyNone.

(** The two categorical sensor classes. *)
Definition categorical (c : sensor_class) : bool :=
  match c with
  | FingridPowerSystemStateSensor | FingridElectricityShortageSensor => true
  | FingridGridFrequencySensor => false
  end.

(** The table and fallback label of a categorical class. *)
Definition table_of (c : sensor_class) : gmap Z string :=
  match c with
  | FingridElectricityShortageSensor => ELECTRICITY_SHORTAGE_STATUS_MAP
  | _ => POWER_SYSTEM_STATE_MAP
  end.

End Vocab.

(** ** Setting up the sensors ([sensor.py], [async_setup_entry]) *)

Module Platform.
Import Sensor Fixtures.

(** A sensor object with the fields [FingridSensor.__init__] adds. *)
Record entity : Type := {
  sensor_of : sensor;
  _config_entry_id : string;
  _attr_unique_id : string
}.

(** [FingridSensor.__init__] (lines 57-80) followed by the subclass's
    [self._attr_extra_state_attributes = {}]. *)
Definition new_sensor (c : sensor_class) (config_entry_id dataset_id : string)
    : entity :=
  {| sensor_of :=
       {| class_of := c;
          _dataset_id := dataset_id;
          _attr_native_value := PyNone;
          _attr_extra_state_attributes := ∅ |};
     _config_entry_id := config_entry_id;
     _attr_unique_id := config_entry_id +:+ "_" +:+ dataset_id |}.

(** [entities_to_add] at the end of [async_setup_entry] (lines 225-269). *)
Definition entities_to_add (entry_id : string) (enabled_datasets : list string)
    : list entity :=
  let l0 : list entity := [] in
  let l1 :=
    if bool_decide (DATASET_ID_POWER_SYSTEM_STATE ∈ enabled_datasets)
    then l0 ++ [new_sensor FingridPowerSystemStateSensor entry_id
                  DATASET_ID_POWER_SYSTEM_STATE]
    else l0 in
  let l2 :=
    if bool_decide (DATASET_ID_GRID_FREQUENCY ∈ enabled_datasets)
    then l1 ++ [new_sensor FingridGridFrequencySensor entry_id
                  DATASET_ID_GRID_FREQUENCY]
    else l1 in
  if bool_decide (DATASET_ID_ELECTRICITY_SHORTAGE_STATUS ∈ enabled_datasets)
  then l2 ++ [new_sensor FingridElectricityShortageSensor entry_id
                DATASET_ID_ELECTRICITY_SHORTAGE_STATUS]
  else l2.

(** [async_setup_entry]: the argument of the one call of
    [async_add_entities], or [None] when the list is empty and the call is
    skipped (lines 271-274). *)
Definition async_setup_entry (entry_id : string)
    (enabled_datasets : list string) : option (list entity) :=
  match entities_to_add entry_id enabled_datasets with
  | [] => None
  | l => Some l
  end.

End Platform.

(** ** The config flow ([config_flow.py]) *)

Module ConfigFlow.
Import Coordinator.

(** What can be raised inside a flow step: a Python exception of the
    enumeration above, or the host's [AbortFlow], by which
    [_abort_if_unique_id_configured] and [async_set_unique_id] end a flow.
    [AbortFlow] derives from [HomeAssistantError], an [Exception]. *)
Inductive flow_exn : Type :=
| PyExn (e : exn)
| AbortFlow (reason : string).

Definition flow_is_Exception (e : flow_exn) : bool :=
  match e with
  | PyExn e => is_Exception e
  | AbortFlow _ => true
  end.

(** What a step returns: [self.async_create_entry(title=.., data=..)] or
    [self.async_show_form(step_id=.., errors=..)]. *)
Inductive flow_result (D : Type) : Type :=
| CreateEntry (title : string) (data : D)
| ShowForm (step_id : string) (errors : gmap string string).
Arguments CreateEntry {D} title data.
Arguments ShowForm {D} step_id errors.

(** The surroundings of [async_step_user]: the outcome of the one
    validation GET (dataset 209), and of the two host calls made after a
    200, [None] when the call returns. *)
Record flow_host : Type := {
  validation_get : res response;
  async_set_unique_id : string -> option flow_exn;
  _abort_if_unique_id_configured : option flow_exn
}.

(** How the [try] suite of [async_step_user] ends: at its [return], at its
    end with [errors] filled, or in an exception. *)
Inductive try_outcome : Type :=
| Returns (r : flow_result string)
| FallsThrough (errors : gmap string string)
| Raises (e : flow_exn).

(** The [try] suite (lines 45-61); [api_key] is [user_input["api_key"]],
    and the entry's data is the user input, which holds just that key. *)
Definition validation_try (h : flow_host) (api_key : string) : try_outcome :=
  match validation_get h with
  | Raise e => Raises (PyExn e)
  | Ok response =>
      if status response =? 200 then
        match async_set_unique_id h api_key with
        | Some e => Raises e
        | None =>
            match _abort_if_unique_id_configured h with
            | Some e => Raises e
            | None => Returns (CreateEntry "Fingrid" api_key)
            end
        end
      else if (status response =? 401) || (status response =? 403) then
        FallsThrough {[ "base" := "invalid_api_key" ]}
      else
        match text response with
        | Raise e => Raises (PyExn e)
        | Ok _ => FallsThrough {[ "base" := "cannot_connect" ]}
        end
  end.

Inductive step_outcome (D : Type) : Type :=
| StepReturns (r : flow_result D)
| StepRaises (e : flow_exn).
Arguments StepReturns {D} r.
Arguments StepRaises {D} e.

(** [FingridEasySetupConfigFlow.async_step_user] (lines 34-70). *)
Definition async_step_user (h : flow_host) (user_input : option string)
    : step_outcome string :=
  match user_input with
  | None => StepReturns (ShowForm "user" ∅)
  | Some api_key =>
      match validation_try h api_key with
      | Returns r => StepReturns r
      | FallsThrough errors => StepReturns (ShowForm "user" errors)
      | Raises e =>
          match e with
          | PyExn ClientError | PyExn TimeoutError =>
              StepReturns (ShowForm "user" {[ "base" := "cannot_connect" ]})
          | _ =>
              if flow_is_Exception e
              then StepReturns (ShowForm "user" {[ "base" := "unknown" ]})
              else StepRaises e
          end
      end
  end.

End ConfigFlow.

(** ** The registry of coordinators ([__init__.py]) *)

Module Registry.

Definition DOMAIN : string := "fingrid_easy_setup".

Section HassData.

(** The coordinator objects, and the exceptions of the host calls. *)
Variable C E : Type.

(** [hass.data], as far as the integration looks: under each domain a dict
    from entry ids to coordinators. *)
Abbreviation hass_data := (gmap string (gmap string C)).

(** [async_setup_entry] (lines 19-45): the new [hass.data] and the outcome.
    [first_refresh] and [forward_setups] are the outcomes of the two awaited
    host calls, [None] when they return. *)
Definition async_setup_entry (data : hass_data) (entry_id : string)
    (coordinator : C) (first_refresh forward_setups : option E)
    : hass_data * (E + bool) :=
  let data1 :=
    match data !! DOMAIN with
    | None => <[DOMAIN := ∅]> data
    | Some _ => data
    end in
  match first_refresh with
  | Some e => (data1, inl e)
  | None =>
      let data2 :=
        <[DOMAIN := <[entry_id := coordinator]> (default ∅ (data1 !! DOMAIN))]>
          data1 in
      match forward_setups with
      | Some e => (data2, inl e)
      | None => (data2, inr true)
      end
  end.

(** [async_unload_entry] (lines 48-65); [unload_ok] is what
    [async_unload_platforms] answered. *)
Definition async_unload_entry (data : hass_data) (entry_id : string)
    (unload_ok : bool) : hass_data * bool :=
  if unload_ok then
    match data !! DOMAIN with
    | Some entries =>
        match entries !! entry_id with
        | Some _ =>
            let entries' := delete entry_id entries in
            if bool_decide (size entries' = 0%nat)
            then (delete DOMAIN data, unload_ok)
            else (<[DOMAIN := entries']> data, unload_ok)
        | None => (data, unload_ok)
        end
    | None => (data, unload_ok)
    end
  else (data, unload_ok).

(** [hass.data[DOMAIN][entry_id]], when both keys are there. *)
Definition registered (data : hass_data) (entry_id : string) : option C :=
  data !! DOMAIN ≫= (.!! entry_id).

End HassData.

End Registry.

(** ** Options and the coordinator's configuration *)

Module Options.
Import Fixtures.

Definition DEFAULT_UPDATE_INTERVAL_MINUTES : Z := 5.
Definition MIN_UPDATE_INTERVAL_MINUTES : Z := 1.
Definition MAX_UPDATE_INTERVAL_MINUTES : Z := 60.

(** A [datetime.timedelta]: normalised days, seconds and microseconds. *)
Record timedelta : Type := {
  days : Z;
  seconds : Z;
  microseconds : Z
}.

(** [timedelta(minutes=m)] for an int [m]; more than 999999999 days either
    way is an [OverflowError]. *)
Definition timedelta_minutes (m : Z) : res timedelta :=
  let s := m * 60 in
  let d := s / 86400 in
  if (d <? -999999999) || (999999999 <? d) then Raise OverflowError
  else Ok {| days := d; seconds := s mod 86400; microseconds := 0 |}.

(** [td.total_seconds() < bound] for an int [bound], compared in
    microseconds. *)
Definition total_seconds_lt (td : timedelta) (bound : Z) : bool :=
  (days td * 86400 + seconds td) * 10 ^ 6 + microseconds td <? bound * 10 ^ 6.

(** [DEFAULT_UPDATE_INTERVAL = timedelta(minutes=5)] *)
Definition DEFAULT_UPDATE_INTERVAL : timedelta :=
  {| days := 0; seconds := 300; microseconds := 0 |}.

(** [entry.options]: the two keys the integration stores, either of which
    may be missing. *)
Record options : Type := {
  enabled_sensors : option (list string);
  update_interval : option Z
}.

(** What [FingridDataUpdateCoordinator.__init__] (lines 33-61) keeps of the
    options. *)
Record coordinator_config : Type := {
  enabled_dataset_ids : list string;
  resolved_update_interval : timedelta
}.

Definition FingridDataUpdateCoordinator_init (o : options)
    : res coordinator_config :=
  let enabled :=
    default [DATASET_ID_POWER_SYSTEM_STATE] (enabled_sensors o) in
  let update_interval_minutes :=
    default (seconds DEFAULT_UPDATE_INTERVAL / 60) (update_interval o) in
  match timedelta_minutes update_interval_minutes with
  | Raise e => Raise e
  | Ok td =>
      Ok {| enabled_dataset_ids := enabled; resolved_update_interval := td |}
  end.

(** The test before the warning of [_async_update_data] (line 122). *)
Definition warns_about_interval (cfg : coordinator_config) : bool :=
  total_seconds_lt (resolved_update_interval cfg) 180.

(** The form of the options flow: the two defaults it is pre-filled with. *)
Record options_form : Type := {
  current_enabled_sensors : list string;
  current_update_interval : Z
}.

(** [FingridOptionsFlowHandler.async_step_init] (lines 87-138): with input,
    an entry holding the input as it is; without, the pre-filled form. *)
Definition async_step_init (o : options) (user_input : option options)
    : options + options_form :=
  match user_input with
  | Some input => inl input
  | None =>
      inr {| current_enabled_sensors :=
               default [DATASET_ID_POWER_SYSTEM_STATE] (enabled_sensors o);
             current_update_interval :=
               default DEFAULT_UPDATE_INTERVAL_MINUTES (update_interval o) |}
  end.

End Options.

(** ** More vocabulary *)

Module Vocab2.
Import Coordinator.

(** The request meets no cancellation: neither the GET nor the reading of
    the body raises anything that is not an [Exception]. *)
Definition no_cancellation (r : res response) : bool :=
  match r with
  | Raise e => is_Exception e
  | Ok response =>
      match json response with Raise e => is_Exception e | Ok _ => true end &&
      match text response with Raise e => is_Exception e | Ok _ => true end
  end.


End Vocab2.

(** ** The poll cycle with its pacing delay *)

Module Paced.
Import Coordinator.

Section Cycle.

Variable fetch_dataset : string -> M pyval.

(** [await asyncio.sleep(7)]: [sleep n] is how the delay that follows the
    [n]-th request of the cycle ends, by returning or by raising (a
    [CancelledError], when the task is cancelled while it waits). *)
Variable sleep : nat -> res unit.

Definition asyncio_sleep : M unit :=
  fun log => (sleep (List.length log), log).

(** One iteration of the [for] loop of [_async_update_data]
    (lines 132-174), the delay of line 153 included. *)
Definition loop_body_paced (dataset_id : string) (st : locals) : M locals :=
  mbind
    (try_except_else (fetch_dataset dataset_id)
       (fun e =>
          match e with
          | FingridApiAuthError =>
              if negb (auth_failure_raised st)
              then raise ConfigEntryAuthFailed
              else ret (store dataset_id PyNone (set_auth_failure_raised st))
          | FingridApiRateLimitError | FingridApiError =>
              ret (store dataset_id PyNone st)
          | _ =>
              if is_Exception e
              then ret (store dataset_id PyNone st)
              else raise e
          end)
       (fun r =>
          let st' := assign_result r st in
          if is_not_None r
          then ret (store dataset_id r st')
          else ret (store dataset_id PyNone st')))
    (fun st1 =>
       mbind asyncio_sleep
         (fun _ =>
            match result st1 with
            | None => raise UnboundLocalError
            | Some r =>
                if isinstance_exception r then
                  if negb (auth_failure_raised st1)
                  then raise ConfigEntryAuthFailed
                  else ret (store dataset_id PyNone
                              (set_auth_failure_raised st1))
                else if isinstance_exception r then
                  ret (store dataset_id PyNone st1)
                else if isinstance_exception r then
                  ret (store dataset_id PyNone st1)
                else if is_not_None r then
                  ret (store dataset_id r st1)
                else
                  ret (store dataset_id PyNone st1)
            end)).

Fixpoint for_each_paced (ids : list string) (st : locals) : M locals :=
  match ids with
  | [] => ret st
  | dataset_id :: rest =>
      mbind (loop_body_paced dataset_id st) (for_each_paced rest)
  end.

(** [_async_update_data] (lines 117-184) with the delays. *)
Definition _async_update_data_paced (enabled_dataset_ids : list string)
    : M (gmap string pyval) :=
  mbind (for_each_paced enabled_dataset_ids initial_locals)
    (fun st =>
       if dict_is_empty (data_results st) && list_truthy enabled_dataset_ids
       then
         if negb (auth_failure_raised st)
         then raise NameError
         else ret (data_results st)
       else ret (data_results st)).

End Cycle.

(** A whole cycle against a network and a schedule of delays. *)
Definition cycle_paced (net : nat -> string -> res response)
    (sleep : nat -> res unit) (enabled_dataset_ids : list string)
    : res (gmap string pyval) * list string :=
  _async_update_data_paced (_async_fetch_dataset net) sleep
    enabled_dataset_ids [].

(** Every delay of the cycle runs to its end. *)
Definition sleep_through : nat -> res unit := fun _ => Ok tt.

(** The task is cancelled in the delay after its [k]-th request. *)
Definition cancelled_after (k : nat) : nat -> res unit :=
  fun n => if Nat.eqb n k then Raise CancelledError else Ok tt.

End Paced.

(** ** The update callback with its write *)

Module Callback.
Import Sensor.


End Callback.

(** ** Properties of [_async_fetch_dataset] *)

Module FetchSpec.
Import Coordinator Fixtures Vocab.

Lemma body_shape_total (body : pyval) : exists o, body_shape body o.
Proof.
  destruct body as [| b | z | f | s | l | d];
    try (exists None; apply shape_no_dict; intros d'; discriminate).
  destruct (dict_get "data" d) as [v|] eqn:Hd.
  - destruct v as [| b | z | f | s | l | d'];
      try (exists None; eapply shape_not_a_list; [exact Hd | intros l'; discriminate]).
    destruct l as [| x rest].
    + exists None. by apply shape_empty_list.
    + exists (Some x). by eapply shape_first.
  - exists None. by apply shape_no_data_key.
Qed.

(** The fetch sends exactly one request, whatever comes back: it never
    retries. *)
Lemma fetch_one_request net dataset_id log :
  snd (_async_fetch_dataset net dataset_id log) = log ++ [dataset_id].
Proof.
  unfold _async_fetch_dataset, try_except, try_except_else, fetch_try_body,
    mbind, session_get, lift, ret, raise.
  destruct (net (List.length log) dataset_id) as [r | e]; simpl.
  - destruct (status r =? 200).
    + destruct (json r) as [body | e]; simpl.
      * destruct body as [| | | | | |d]; try reflexivity.
        destruct (dict_get "data" d) as [[| | | | |[|x l]|]|]; reflexivity.
      * destruct e; reflexivity.
    + destruct ((status r =? 401) || (status r =? 403)); [reflexivity|].
      destruct (status r =? 429); [reflexivity|].
      destruct (text r) as [t | e]; simpl; [reflexivity|].
      destruct e; reflexivity.
  - destruct e; reflexivity.
Qed.

(** Whatever the fetch raises is a [FingridApiError], unless it is no
    [Exception] at all (a cancellation passing through). *)
Lemma fetch_raises_FingridApiError net dataset_id log e log' :
  _async_fetch_dataset net dataset_id log = (Raise e, log') ->
  e = FingridApiError \/ is_Exception e = false.
Proof.
  unfold _async_fetch_dataset, try_except, try_except_else, fetch_try_body,
    mbind, session_get, lift, ret, raise.
  destruct (net (List.length log) dataset_id) as [r | e0]; simpl.
  - destruct (status r =? 200).
    + destruct (json r) as [body | e0]; simpl.
      * destruct body as [| | | | | |d]; try discriminate.
        destruct (dict_get "data" d) as [[| | | | |[|x l]|]|]; discriminate.
      * destruct e0; simpl; intros [= <- _]; auto.
    + destruct ((status r =? 401) || (status r =? 403));
        [intros [= <- _]; auto|].
      destruct (status r =? 429); [intros [= <- _]; auto|].
      destruct (text r) as [t | e0]; simpl; [intros [= <- _]; auto|].
      destruct e0; simpl; intros [= <- _]; auto.
  - destruct e0; simpl; intros [= <- _]; auto.
Qed.

(** C4: for a 200 response whose body decodes to JSON, the fetch returns the
    first element of a non-empty ["data"] list of a dict, and [None] for
    each of the other shapes (no dict, no ["data"] key, ["data"] not a list,
    empty list); it does not raise, and every body has one of these
    shapes. *)
Theorem fetch_200_first_entry_or_None net dataset_id log r body :
  net (List.length log) dataset_id = Ok r ->
  status r = 200 ->
  json r = Ok body ->
  (exists o, body_shape body o) /\
  (forall o, body_shape body o ->
     _async_fetch_dataset net dataset_id log
     = (Ok (default PyNone o), log ++ [dataset_id])).
Proof.
  intros Hnet Hst Hjson. split; [apply body_shape_total|].
  intros o Hshape.
  unfold _async_fetch_dataset, try_except, try_except_else, fetch_try_body,
    mbind, session_get, lift, ret.
  rewrite Hnet, Hst, Hjson. simpl.
  destruct Hshape as [d x rest Hd | v Hv | d Hd | d v Hd Hv | d Hd]; simpl.
  - by rewrite Hd.
  - destruct v as [| | | | | |d]; try reflexivity. by destruct (Hv d).
  - by rewrite Hd.
  - rewrite Hd. destruct v as [| | | | |l|]; try reflexivity. by destruct (Hv l).
  - by rewrite Hd.
Qed.

Lemma fetch_200_first_entry_or_None_witness :
  _async_fetch_dataset net_one_entry "209" [] = (Ok entry_blackout, ["209"]) /\
  _async_fetch_dataset net_empty_data "209" [] = (Ok PyNone, ["209"]).
Proof.
  split.
  - apply (proj2 (fetch_200_first_entry_or_None net_one_entry "209" []
                    (ok_response (PyDict [("data", PyList [entry_blackout])]))
                    (PyDict [("data", PyList [entry_blackout])])
                    eq_refl eq_refl eq_refl)
                 (Some entry_blackout)).
    by apply (shape_first _ entry_blackout []).
  - apply (proj2 (fetch_200_first_entry_or_None net_empty_data "209" []
                    (ok_response (PyDict [("data", PyList [])]))
                    (PyDict [("data", PyList [])])
                    eq_refl eq_refl eq_refl)
                 None).
    by apply shape_empty_list.
Defined.

(** C5: on the statuses 401, 403 and 429 the [try] body raises
    [FingridApiAuthError] and [FingridApiRateLimitError], but the
    [except Exception] handler of the same [try] catches them, and what
    leaves the fetch is a [FingridApiError]. *)
Theorem fetch_auth_and_rate_limit_leave_as_FingridApiError :
  fetch_try_body (net_status 401) "209" [] = (Raise FingridApiAuthError, ["209"]) /\
  _async_fetch_dataset (net_status 401) "209" [] = (Raise FingridApiError, ["209"]) /\
  fetch_try_body (net_status 403) "209" [] = (Raise FingridApiAuthError, ["209"]) /\
  _async_fetch_dataset (net_status 403) "209" [] = (Raise FingridApiError, ["209"]) /\
  fetch_try_body (net_status 429) "209" [] = (Raise FingridApiRateLimitError, ["209"]) /\
  _async_fetch_dataset (net_status 429) "209" [] = (Raise FingridApiError, ["209"]).
Proof. repeat split; reflexivity. Qed.

End FetchSpec.

(** ** Properties of the poll cycle *)

Module CycleSpec.
Import Coordinator Fixtures Vocab.

Ltac unfold_loop :=
  unfold loop_body, try_except_else, mbind, ret, raise.

Section Loop.

Variable fetch : string -> M pyval.

(** A fetch that returns [v] records [v] under the dataset id and leaves
    [v] in [result]. *)
Lemma loop_body_returned d st log v log' :
  fetch d log = (Ok v, log') ->
  loop_body fetch d st log
  = (Ok (store d v (store d v (assign_result v st))), log').
Proof.
  intros Hf. unfold_loop. rewrite Hf. by destruct v.
Qed.

(** A downgraded error while [result] is still unbound: the post-delay
    branch reads the unbound local. *)
Lemma loop_body_error_unbound d st log e log' :
  fetch d log = (Raise e, log') ->
  e = FingridApiRateLimitError \/ e = FingridApiError ->
  result st = None ->
  loop_body fetch d st log = (Raise UnboundLocalError, log').
Proof.
  intros Hf He Hr. unfold_loop. rewrite Hf.
  destruct He as [-> | ->]; simpl; by rewrite Hr.
Qed.

(** A downgraded error after an earlier fetch returned [r]: the except
    branch stores [None], then the post-delay branch stores the stale [r]
    under the failing dataset's id. *)
Lemma loop_body_error_stale d st log e log' r :
  fetch d log = (Raise e, log') ->
  e = FingridApiRateLimitError \/ e = FingridApiError ->
  result st = Some r ->
  loop_body fetch d st log = (Ok (store d r (store d PyNone st)), log').
Proof.
  intros Hf He Hr. unfold_loop. rewrite Hf.
  destruct He as [-> | ->]; simpl; rewrite Hr; by destruct r.
Qed.

Lemma loop_body_auth_error d st log log' :
  fetch d log = (Raise FingridApiAuthError, log') ->
  auth_failure_raised st = false ->
  loop_body fetch d st log = (Raise ConfigEntryAuthFailed, log').
Proof.
  intros Hf Hflag. unfold_loop. rewrite Hf. simpl. by rewrite Hflag.
Qed.

(** An iteration that completes never sets [auth_failure_raised], and
    leaves a key in [data_results]. *)
Lemma loop_body_completes d st log st' log' :
  loop_body fetch d st log = (Ok st', log') ->
  auth_failure_raised st = false ->
  auth_failure_raised st' = false /\ is_Some (data_results st' !! d).
Proof.
  unfold_loop. intros H Hflag.
  destruct (fetch d log) as [[v | e] l].
  - destruct v; simpl in H; injection H as <- _; simpl;
      (split; [exact Hflag | rewrite lookup_insert_eq; eauto]).
  - destruct e; simpl in H; rewrite ?Hflag in H; simpl in H;
      try discriminate;
      destruct (result st) as [r|]; try discriminate;
      destruct r; simpl in H; injection H as <- _; simpl;
      (split; [exact Hflag | rewrite lookup_insert_eq; eauto]).
Qed.

(** What an iteration raises. *)
Lemma loop_body_raises d st log e log' :
  loop_body fetch d st log = (Raise e, log') ->
  e = ConfigEntryAuthFailed \/ e = UnboundLocalError \/ is_Exception e = false.
Proof.
  unfold_loop. intros H.
  destruct (fetch d log) as [[v | e0] l].
  - destruct v; simpl in H; discriminate.
  - destruct e0; simpl in H;
      try (destruct (negb (auth_failure_raised st)); simpl in H);
      try (injection H as <- _; auto; fail);
      destruct (result st) as [r|]; simpl in H;
      try (injection H as <- _; auto; fail);
      destruct r; simpl in H; discriminate.
Qed.

Lemma for_each_app pre post st log :
  for_each fetch (pre ++ post) st log
  = match for_each fetch pre st log with
    | (Ok st', log') => for_each fetch post st' log'
    | (Raise e, log') => (Raise e, log')
    end.
Proof.
  revert st log. induction pre as [| d pre IH]; intros st log; simpl.
  - reflexivity.
  - unfold mbind. destruct (loop_body fetch d st log) as [[st1 | e] l].
    + apply IH.
    + reflexivity.
Qed.

(** [auth_failure_raised] is false at every iteration of every cycle. *)
Lemma for_each_flag ids : forall st log st' log',
  for_each fetch ids st log = (Ok st', log') ->
  auth_failure_raised st = false ->
  auth_failure_raised st' = false.
Proof.
  induction ids as [| d ids IH]; intros st log st' log' H Hflag; simpl in H.
  - unfold ret in H. by injection H as <- _.
  - unfold mbind in H.
    destruct (loop_body fetch d st log) as [[st1 | e] l] eqn:Hb;
      [| discriminate].
    apply loop_body_completes in Hb as [Hflag1 _]; [| exact Hflag].
    eapply IH; eauto.
Qed.

(** Later iterations only add keys. *)
Lemma for_each_keeps_keys ids : forall st log st' log' k,
  for_each fetch ids st log = (Ok st', log') ->
  is_Some (data_results st !! k) ->
  is_Some (data_results st' !! k).
Proof.
  induction ids as [| d ids IH]; intros st log st' log' k H Hk; simpl in H.
  - unfold ret in H. by injection H as <- _.
  - unfold mbind in H.
    destruct (loop_body fetch d st log) as [[st1 | e] l] eqn:Hb;
      [| discriminate].
    eapply IH; [exact H |].
    revert Hb. unfold_loop.
    destruct (fetch d log) as [[v | e] l0].
    + destruct v; simpl; intros [= <- _]; simpl;
        rewrite !lookup_insert; repeat case_decide; eauto.
    + destruct e; simpl;
        try (destruct (negb (auth_failure_raised st)); simpl);
        try discriminate;
        destruct (result st) as [r|]; simpl; try discriminate;
        destruct r; simpl; intros [= <- _]; simpl;
        rewrite !lookup_insert; repeat case_decide; eauto.
Qed.

(** After a completed loop over a non-empty list the dict is not empty. *)
Lemma for_each_nonempty ids st log st' log' :
  ids <> [] ->
  for_each fetch ids st log = (Ok st', log') ->
  auth_failure_raised st = false ->
  dict_is_empty (data_results st') = false.
Proof.
  destruct ids as [| d ids]; [done |]. intros _ H Hflag. simpl in H.
  unfold mbind in H.
  destruct (loop_body fetch d st log) as [[st1 | e] l] eqn:Hb; [| discriminate].
  apply loop_body_completes in Hb as [_ Hk]; [| exact Hflag].
  eapply for_each_keeps_keys in Hk; [| exact H].
  unfold dict_is_empty. apply bool_decide_eq_false.
  intros Hsz. apply map_size_empty_iff in Hsz. rewrite Hsz in Hk.
  rewrite lookup_empty in Hk. by destruct Hk.
Qed.

Lemma for_each_raises ids : forall st log e log',
  for_each fetch ids st log = (Raise e, log') ->
  e = ConfigEntryAuthFailed \/ e = UnboundLocalError \/ is_Exception e = false.
Proof.
  induction ids as [| d ids IH]; intros st log e log' H; simpl in H.
  - discriminate.
  - unfold mbind in H.
    destruct (loop_body fetch d st log) as [[st1 | e1] l] eqn:Hb.
    + eapply IH; eauto.
    + injection H as <- _. eapply loop_body_raises; eauto.
Qed.

(** A loop that completes publishes its dict, whatever it holds. *)
Lemma update_data_publishes ids log st log' :
  for_each fetch ids initial_locals log = (Ok st, log') ->
  _async_update_data fetch ids log = (Ok (data_results st), log').
Proof.
  intros H. unfold _async_update_data, mbind. rewrite H.
  destruct ids as [| d ids].
  - simpl. rewrite andb_false_r. reflexivity.
  - erewrite for_each_nonempty; eauto. done.
Qed.

(** No cycle ends in [UpdateFailed]. *)
Lemma update_data_never_UpdateFailed ids log :
  fst (_async_update_data fetch ids log) <> Raise UpdateFailed.
Proof.
  destruct (for_each fetch ids initial_locals log) as [[st | e] l] eqn:H.
  - by erewrite update_data_publishes.
  - unfold _async_update_data, mbind. rewrite H. simpl.
    apply for_each_raises in H as [-> | [-> | He]];
      [discriminate | discriminate | intros [= ->]; discriminate].
Qed.

End Loop.

(** C1: dataset "209" returns a data point and the fetch of "177" then
    fails (status 429 or 500, or a stub raising [FingridApiRateLimitError]).
    The except branch stores [None] for "177", but the post-delay branch
    then stores the value still held by [result], the data point of "209":
    the snapshot does not record "177" as absent. *)
Theorem failed_fetch_records_stale_result :
  let stale : gmap string pyval :=
    <["177" := entry_blackout]> {["209" := entry_blackout]} in
  cycle (net_entry_then_status 429) ["209"; "177"]
    = (Ok stale, ["209"; "177"]) /\
  cycle (net_entry_then_status 500) ["209"; "177"]
    = (Ok stale, ["209"; "177"]) /\
  _async_update_data
    (scripted_fetch (script_entry_then FingridApiRateLimitError))
    ["209"; "177"] []
    = (Ok stale, ["209"; "177"]) /\
  stale !! "177" = Some entry_blackout.
Proof. cbv zeta. repeat split; vm_compute; reflexivity. Qed.

(** C2: the only enabled dataset answers 200 with an empty ["data"] list.
    The loop stores [None] under its key, so [data_results] is not empty,
    the test of line 176 fails, and the all-absent snapshot is returned.
    No cycle at all ends in [UpdateFailed]. *)
Theorem all_absent_snapshot_is_published :
  cycle net_empty_data ["209"] = (Ok {["209" := PyNone]}, ["209"]) /\
  (forall fetch ids log,
     fst (_async_update_data fetch ids log) <> Raise UpdateFailed).
Proof.
  split; [vm_compute; reflexivity |].
  intros fetch ids log. apply update_data_never_UpdateFailed.
Qed.

(** With a stub in place of the fetch that raises [FingridApiAuthError] for
    both of two datasets, the cycle ends at the first one; the second
    dataset is never requested and no snapshot records it as absent. *)
Lemma second_auth_error_is_not_recorded_absent :
  let run :=
    _async_update_data (scripted_fetch script_auth_error) ["209"; "177"] [] in
  run = (Raise ConfigEntryAuthFailed, ["209"]) /\
  ~ (exists snapshot : gmap string pyval,
       fst run = Ok snapshot /\ snapshot !! "177" = Some PyNone).
Proof.
  cbv zeta. split; [reflexivity |].
  intros (snapshot & H & _). discriminate H.
Qed.

(** The loop against any fetch method: when it reaches a dataset whose
    fetch raises [FingridApiAuthError], as a stub may, the cycle ends there
    in [ConfigEntryAuthFailed] with the request log as that fetch left it;
    and [auth_failure_raised] is still false at that point, as at every
    iteration, so the branch that would swallow an auth error is never
    taken. *)
Theorem first_auth_error_escalates fetch pre d post st log1 log2 :
  for_each fetch pre initial_locals [] = (Ok st, log1) ->
  fetch d log1 = (Raise FingridApiAuthError, log2) ->
  auth_failure_raised st = false /\
  _async_update_data fetch (pre ++ d :: post) []
  = (Raise ConfigEntryAuthFailed, log2).
Proof.
  intros Hpre Hd.
  assert (Hflag : auth_failure_raised st = false)
    by (eapply for_each_flag; eauto).
  split; [exact Hflag |].
  unfold _async_update_data, mbind.
  rewrite for_each_app, Hpre. simpl. unfold mbind.
  by rewrite (loop_body_auth_error fetch d st log1 log2 Hd Hflag).
Qed.

Lemma first_auth_error_escalates_witness :
  auth_failure_raised
    (store "209" entry_blackout
       (store "209" entry_blackout
          (assign_result entry_blackout initial_locals))) = false /\
  _async_update_data (scripted_fetch (script_entry_then FingridApiAuthError))
    (["209"] ++ "177" :: ["336"]) []
  = (Raise ConfigEntryAuthFailed, ["209"; "177"]).
Proof.
  apply (first_auth_error_escalates
           (scripted_fetch (script_entry_then FingridApiAuthError))
           ["209"] "177" ["336"] _ ["209"] ["209"; "177"]);
    reflexivity.
Defined.

(** C9: when the fetch of the first enabled dataset raises
    [FingridApiRateLimitError] or [FingridApiError], [result] is still
    unbound when the post-delay branch reads it, and the cycle ends in
    [UnboundLocalError], a [NameError], right after that one request: the
    dataset is not recorded and no other dataset is attempted. *)
Theorem first_fetch_error_ends_in_NameError fetch d rest e log' :
  fetch d [] = (Raise e, log') ->
  e = FingridApiRateLimitError \/ e = FingridApiError ->
  _async_update_data fetch (d :: rest) [] = (Raise UnboundLocalError, log') /\
  is_NameError UnboundLocalError = true.
Proof.
  intros Hf He. split; [| reflexivity].
  unfold _async_update_data, mbind. simpl. unfold mbind.
  by rewrite (loop_body_error_unbound fetch d initial_locals [] e log' Hf He).
Qed.

Lemma first_fetch_error_ends_in_NameError_witness :
  cycle (net_status 500) ["209"; "177"] = (Raise UnboundLocalError, ["209"]) /\
  is_NameError UnboundLocalError = true.
Proof.
  apply (first_fetch_error_ends_in_NameError
           (_async_fetch_dataset (net_status 500)) "209" ["177"]
           FingridApiError ["209"]);
    [reflexivity | right; reflexivity].
Defined.

End CycleSpec.

(** ** Properties of the value presenters *)

Module PresenterSpec.
Import Sensor Fixtures Vocab.

Example int_of_float_2_5 :
  int_of_float float_2_5 = Ok 2 /\ int_of_float float_minus_2_5 = Ok (-2).
Proof. split; reflexivity. Qed.

(** [int] of a finite float is its truncation towards zero. *)
Lemma int_of_float_truncates f n :
  int_of_float f = Ok n -> float_truncates_to f n.
Proof.
  destruct f as [s | s | | s m e]; simpl; try discriminate.
  - by intros [= <-].
  - intros [= <-].
    destruct (0 <=? e) eqn:He.
    + exists (Z.pos m * 2 ^ e). apply Z.leb_le in He.
      split; [| done].
      apply Z.mul_nonneg_nonneg; [lia | apply Z.pow_nonneg; lia].
    + apply Z.leb_gt in He.
      assert (Hpos : 0 < 2 ^ (- e)) by (apply Z.pow_pos_nonneg; lia).
      exists (Z.pos m / 2 ^ (- e)). repeat split.
      * apply Z.div_pos; lia.
      * rewrite Z.mul_comm. apply Z.mul_div_le. exact Hpos.
      * rewrite Z.mul_comm. apply Z.mul_succ_div_gt. exact Hpos.
Qed.

Lemma py_int_finite v :
  is_finite_number v = true ->
  exists n, py_int v = Ok n /\ truncates_to v n.
Proof.
  destruct v as [| b | z | f | t | l | d]; simpl; try discriminate.
  - eauto.
  - eauto.
  - destruct f as [s | s | | s m e]; try discriminate; intros _.
    + exists 0. split; reflexivity.
    + eexists. split; [reflexivity |].
      by apply int_of_float_truncates.
Qed.

Lemma finite_is_int_or_float v :
  is_finite_number v = true -> is_int_or_float v = true.
Proof. destruct v as [| | | [] | | |]; simpl; congruence. Qed.

Lemma set_attribute_twice k v s :
  set_attribute k v (set_attribute k v s) = set_attribute k v s.
Proof. unfold set_attribute. simpl. by rewrite insert_insert_eq. Qed.

Lemma set_native_attribute_twice k v x y s :
  set_attribute k v (set_native_value x (set_attribute k v (set_native_value y s)))
  = set_attribute k v (set_native_value x s).
Proof. unfold set_attribute, set_native_value. simpl. by rewrite insert_insert_eq. Qed.

(** C6, as stated, fails: a NaN or an infinite float passes the
    [isinstance] test, and [int] raises on it, so the presenter yields
    neither a label of the table nor "Unknown". *)
Lemma nan_and_infinity_are_not_decoded :
  let nan := [("value", PyFloat S754_nan)] in
  let inf := [("value", PyFloat (S754_infinity false))] in
  let power := fresh_sensor FingridPowerSystemStateSensor "209" in
  let shortage := fresh_sensor FingridElectricityShortageSensor "336" in
  is_int_or_float (dict_get_default "value" nan) = true /\
  is_int_or_float (dict_get_default "value" inf) = true /\
  _update_state nan power = Raise ValueError /\
  _update_state inf power = Raise OverflowError /\
  _update_state nan shortage = Raise ValueError /\
  _update_state inf shortage = Raise OverflowError.
Proof. cbv zeta. repeat split; reflexivity. Qed.

(** C6, amended: for a categorical sensor and an observation whose value is
    an int, a bool or a finite float, the value is truncated to an integer
    [n], the state is the label of [n] in the table of the sensor's class,
    or "Unknown" when the table has no [n], and [raw_value] becomes [n];
    for a value that is no int, bool or float the state is "Unknown".  In
    the power-system table 2 is "Endangered", in the shortage table 1 is
    "Electricity shortage possible", and 99 is in neither. *)
Theorem categorical_decode (s : sensor) (d : list (string * pyval)) :
  categorical (class_of s) = true ->
  (is_finite_number (dict_get_default "value" d) = true ->
   exists n,
     truncates_to (dict_get_default "value" d) n /\
     _update_state d s
     = Ok (set_attribute "raw_value" (PyInt n)
             (set_native_value
                (PyStr (default "Unknown" (table_of (class_of s) !! n))) s))) /\
  (is_int_or_float (dict_get_default "value" d) = false ->
   _update_state d s = Ok (set_native_value (PyStr "Unknown") s)) /\
  POWER_SYSTEM_STATE_MAP !! 2 = Some "Endangered" /\
  ELECTRICITY_SHORTAGE_STATUS_MAP !! 1 = Some "Electricity shortage possible" /\
  POWER_SYSTEM_STATE_MAP !! 99 = None /\
  ELECTRICITY_SHORTAGE_STATUS_MAP !! 99 = None.
Proof.
  intros Hcat. split; [| split; [| repeat split]].
  - intros Hfin.
    destruct (py_int_finite _ Hfin) as (n & Hint & Htr).
    exists n. split; [exact Htr |].
    apply finite_is_int_or_float in Hfin.
    unfold _update_state.
    destruct (class_of s); try discriminate; simpl;
      [ unfold FingridPowerSystemStateSensor_update_state
      | unfold FingridElectricityShortageSensor_update_state ];
      by rewrite Hfin, Hint.
  - intros Hnon. unfold _update_state.
    destruct (class_of s); try discriminate;
      [ unfold FingridPowerSystemStateSensor_update_state
      | unfold FingridElectricityShortageSensor_update_state ];
      by rewrite Hnon.
Qed.

Lemma categorical_decode_witness :
  let power := fresh_sensor FingridPowerSystemStateSensor "209" in
  let shortage := fresh_sensor FingridElectricityShortageSensor "336" in
  (exists n,
     truncates_to (PyFloat float_2_5) n /\
     _update_state [("value", PyFloat float_2_5)] power
     = Ok (set_attribute "raw_value" (PyInt n)
             (set_native_value
                (PyStr (default "Unknown" (POWER_SYSTEM_STATE_MAP !! n)))
                power))) /\
  _update_state [("value", PyStr "n/a")] shortage
  = Ok (set_native_value (PyStr "Unknown") shortage).
Proof.
  cbv zeta. split.
  - apply (proj1 (categorical_decode
                    (fresh_sensor FingridPowerSystemStateSensor "209")
                    [("value", PyFloat float_2_5)] eq_refl)).
    reflexivity.
  - apply (proj1 (proj2 (categorical_decode
                    (fresh_sensor FingridElectricityShortageSensor "336")
                    [("value", PyStr "n/a")] eq_refl))).
    reflexivity.
Defined.

(** The decode on sample inputs: mapped and unmapped codes, a string, a
    fraction and a bool. *)
Example decode_examples :
  let power := fresh_sensor FingridPowerSystemStateSensor "209" in
  let shortage := fresh_sensor FingridElectricityShortageSensor "336" in
  _attr_native_value <$> res_to_option (_update_state [("value", PyInt 2)] power)
    = Some (PyStr "Endangered") /\
  _attr_native_value <$> res_to_option (_update_state [("value", PyInt 1)] shortage)
    = Some (PyStr "Electricity shortage possible") /\
  _attr_native_value <$> res_to_option (_update_state [("value", PyInt 99)] power)
    = Some (PyStr "Unknown") /\
  _attr_native_value <$> res_to_option (_update_state [("value", PyInt 99)] shortage)
    = Some (PyStr "Unknown") /\
  _attr_native_value <$> res_to_option (_update_state [("value", PyStr "n/a")] power)
    = Some (PyStr "Unknown") /\
  _attr_native_value <$> res_to_option (_update_state [("value", PyFloat float_2_5)] power)
    = Some (PyStr "Endangered") /\
  _attr_native_value <$> res_to_option (_update_state [("value", PyBool true)] power)
    = Some (PyStr "Normal").
Proof. cbv zeta. repeat split; vm_compute; reflexivity. Qed.

(** C7: when the sensor's dataset is absent from the current snapshot (no
    key, or the value [None]), the update callback returns without touching
    the sensor, [available] is false, and the state shown is "unavailable",
    not the native value left by an earlier snapshot. *)
Theorem absent_dataset_is_unavailable
    (c : coordinator) (s : sensor) (snapshot : gmap string pyval) :
  data c = Some snapshot ->
  absent snapshot (_dataset_id s) ->
  _handle_coordinator_update c s = Ok s /\
  available c s = false /\
  presented_state c s = StateUnavailable /\
  presented_state c s <> StateOf (_attr_native_value s).
Proof.
  intros Hdata Habs.
  assert (Hav : available c s = false).
  { unfold available. rewrite Hdata.
    destruct Habs as [-> | ->]; simpl; apply andb_false_r. }
  repeat split.
  - unfold _handle_coordinator_update. rewrite Hdata.
    destruct (snapshot_truthy snapshot); [| reflexivity].
    by destruct Habs as [-> | ->].
  - exact Hav.
  - unfold presented_state. by rewrite Hav.
  - unfold presented_state. by rewrite Hav.
Qed.

Lemma absent_dataset_is_unavailable_witness :
  let c := coordinator_with {[ "209" := PyNone; "177" := entry_blackout ]} in
  _handle_coordinator_update c sensor_after_blackout = Ok sensor_after_blackout /\
  available c sensor_after_blackout = false /\
  presented_state c sensor_after_blackout = StateUnavailable /\
  presented_state c sensor_after_blackout
  <> StateOf (_attr_native_value sensor_after_blackout).
Proof.
  cbv zeta.
  apply (absent_dataset_is_unavailable
           (coordinator_with {[ "209" := PyNone; "177" := entry_blackout ]})
           sensor_after_blackout
           {[ "209" := PyNone; "177" := entry_blackout ]});
    [reflexivity | right; vm_compute; reflexivity].
Defined.

Lemma FingridSensor_update_state_twice d s :
  twice (FingridSensor_update_state d) s = FingridSensor_update_state d s.
Proof.
  unfold twice, FingridSensor_update_state.
  destruct (dict_get "endTime" d) as [t |]; simpl.
  - by rewrite set_native_attribute_twice.
  - destruct (dict_get "startTime" d) as [t |]; simpl.
    + by rewrite set_native_attribute_twice.
    + reflexivity.
Qed.

Lemma FingridPowerSystemStateSensor_update_state_twice d s :
  twice (FingridPowerSystemStateSensor_update_state d) s
  = FingridPowerSystemStateSensor_update_state d s.
Proof.
  unfold twice, FingridPowerSystemStateSensor_update_state.
  destruct (is_int_or_float (dict_get_default "value" d)); [| reflexivity].
  destruct (py_int (dict_get_default "value" d)) as [n | e]; [| reflexivity].
  by rewrite set_native_attribute_twice.
Qed.

Lemma FingridElectricityShortageSensor_update_state_twice d s :
  twice (FingridElectricityShortageSensor_update_state d) s
  = FingridElectricityShortageSensor_update_state d s.
Proof.
  unfold twice, FingridElectricityShortageSensor_update_state.
  destruct (is_int_or_float (dict_get_default "value" d)); [| reflexivity].
  destruct (py_int (dict_get_default "value" d)) as [n | e]; [| reflexivity].
  by rewrite set_native_attribute_twice.
Qed.

(** No update changes the class or the dataset id of a sensor. *)
Lemma _update_state_identity d s s' :
  _update_state d s = Ok s' ->
  class_of s' = class_of s /\ _dataset_id s' = _dataset_id s.
Proof.
  unfold _update_state, FingridSensor_update_state,
    FingridPowerSystemStateSensor_update_state,
    FingridElectricityShortageSensor_update_state.
  destruct (class_of s) eqn:Hc;
    repeat match goal with
           | |- context [match ?x with _ => _ end] => destruct x
           end;
    intros [= <-]; simpl; auto; discriminate.
Qed.

Lemma _update_state_twice d s :
  twice (_update_state d) s = _update_state d s.
Proof.
  unfold twice.
  destruct (_update_state d s) as [s' | e] eqn:H; [| reflexivity].
  destruct (_update_state_identity d s s' H) as [Hc _].
  revert H. unfold _update_state. rewrite Hc.
  destruct (class_of s); intros H.
  - pose proof (FingridPowerSystemStateSensor_update_state_twice d s) as Ht.
    unfold twice in Ht. by rewrite H in Ht.
  - pose proof (FingridSensor_update_state_twice d s) as Ht.
    unfold twice in Ht. by rewrite H in Ht.
  - pose proof (FingridElectricityShortageSensor_update_state_twice d s) as Ht.
    unfold twice in Ht. by rewrite H in Ht.
Qed.

Lemma update_from_twice v s :
  twice (update_from v) s = update_from v s.
Proof.
  unfold twice, update_from.
  destruct (truthy v); [| reflexivity].
  destruct v as [| b | z | f | t | l | d]; try reflexivity.
  - destruct (is_substring "value" t); reflexivity.
  - destruct (existsb eq_value_key l); reflexivity.
  - destruct (dict_mem "value" d); [| reflexivity].
    exact (_update_state_twice d s).
Qed.

Lemma update_from_identity v s s' :
  update_from v s = Ok s' -> _dataset_id s' = _dataset_id s.
Proof.
  unfold update_from.
  destruct (truthy v); [| by intros [= <-]].
  destruct v as [| b | z | f | t | l | d]; try discriminate.
  - destruct (is_substring "value" t); [discriminate | by intros [= <-]].
  - destruct (existsb eq_value_key l); [discriminate | by intros [= <-]].
  - destruct (dict_mem "value" d); [| by intros [= <-]].
    intros H. by destruct (_update_state_identity d s s' H).
Qed.

Lemma _handle_coordinator_update_twice c s :
  twice (_handle_coordinator_update c) s = _handle_coordinator_update c s.
Proof.
  unfold twice, _handle_coordinator_update.
  destruct (data c) as [snapshot |]; [| reflexivity].
  destruct (snapshot_truthy snapshot); [| reflexivity].
  destruct (snapshot !! _dataset_id s) as [v |] eqn:Hv.
  - destruct (update_from v s) as [s' | e] eqn:H; [| reflexivity].
    rewrite (update_from_identity v s s' H), Hv.
    pose proof (update_from_twice v s) as Ht.
    unfold twice in Ht. by rewrite H in Ht.
  - by rewrite Hv.
Qed.

(** C8: for every sensor, presenting the same observation, or the same
    snapshot, twice in succession leaves the sensor (its native value and
    its extra attributes) exactly as presenting it once, and so shows the
    same state. *)
Theorem presenting_is_idempotent
    (c : coordinator) (d : list (string * pyval)) (s : sensor) :
  twice (_update_state d) s = _update_state d s /\
  twice (_handle_coordinator_update c) s = _handle_coordinator_update c s /\
  (forall s1 s2,
     _handle_coordinator_update c s = Ok s1 ->
     _handle_coordinator_update c s1 = Ok s2 ->
     presented_state c s2 = presented_state c s1 /\
     _attr_extra_state_attributes s2 = _attr_extra_state_attributes s1).
Proof.
  assert (Hh : twice (_handle_coordinator_update c) s
               = _handle_coordinator_update c s)
    by apply _handle_coordinator_update_twice.
  split; [apply _update_state_twice |]. split; [exact Hh |].
  intros s1 s2 H1 H2. unfold twice in Hh. rewrite H1, H2 in Hh.
  by injection Hh as ->.
Qed.

Lemma presenting_is_idempotent_witness :
  let c := coordinator_with {[ "209" := entry_blackout ]} in
  let s := fresh_sensor FingridPowerSystemStateSensor "209" in
  _handle_coordinator_update c s = Ok sensor_after_blackout /\
  _handle_coordinator_update c sensor_after_blackout = Ok sensor_after_blackout /\
  presented_state c sensor_after_blackout = StateOf (PyStr "Blackout") /\
  presented_state c sensor_after_blackout = presented_state c sensor_after_blackout /\
  _attr_extra_state_attributes sensor_after_blackout
  = _attr_extra_state_attributes sensor_after_blackout.
Proof.
  cbv zeta. do 3 (split; [vm_compute; reflexivity |]).
  apply (proj2 (proj2 (presenting_is_idempotent
           (coordinator_with {[ "209" := entry_blackout ]}) []
           (fresh_sensor FingridPowerSystemStateSensor "209")))
         sensor_after_blackout sensor_after_blackout);
    vm_compute; reflexivity.
Defined.

(** Before the first snapshot ([data] is [None]) every sensor is
    unavailable as well. *)
Lemma no_snapshot_is_unavailable (c : coordinator) (s : sensor) :
  data c = None ->
  _handle_coordinator_update c s = Ok s /\
  presented_state c s = StateUnavailable.
Proof.
  intros Hdata.
  unfold _handle_coordinator_update, presented_state, available.
  rewrite Hdata, andb_false_r. by split.
Qed.

(** C10: for a categorical sensor and an observation whose value is no
    int, bool or float, the update sets the state to "Unknown" and writes
    nothing else: [raw_value] and every other extra attribute keep the
    values of the previous update. *)
Theorem non_numeric_keeps_raw_value (s : sensor) (d : list (string * pyval)) :
  categorical (class_of s) = true ->
  is_int_or_float (dict_get_default "value" d) = false ->
  exists s',
    _update_state d s = Ok s' /\
    _attr_native_value s' = PyStr "Unknown" /\
    _attr_extra_state_attributes s' = _attr_extra_state_attributes s /\
    _attr_extra_state_attributes s' !! "raw_value"
    = _attr_extra_state_attributes s !! "raw_value".
Proof.
  intros Hcat Hnon.
  exists (set_native_value (PyStr "Unknown") s).
  split; [| by repeat split].
  unfold _update_state.
  destruct (class_of s); try discriminate;
    [ unfold FingridPowerSystemStateSensor_update_state
    | unfold FingridElectricityShortageSensor_update_state ];
    by rewrite Hnon.
Qed.

Lemma non_numeric_keeps_raw_value_witness :
  exists s',
    _update_state [("value", PyStr "n/a")] sensor_after_blackout = Ok s' /\
    _attr_native_value s' = PyStr "Unknown" /\
    _attr_extra_state_attributes s'
    = _attr_extra_state_attributes sensor_after_blackout /\
    _attr_extra_state_attributes s' !! "raw_value"
    = _attr_extra_state_attributes sensor_after_blackout !! "raw_value".
Proof.
  apply (non_numeric_keeps_raw_value sensor_after_blackout
           [("value", PyStr "n/a")]);
    reflexivity.
Defined.

(** After "Blackout", a non-numeric value shows "Unknown" next to the old
    [raw_value] 4. *)
Example stale_raw_value :
  _update_state [("value", PyStr "n/a")] sensor_after_blackout
  = Ok {| class_of := FingridPowerSystemStateSensor;
          _dataset_id := "209";
          _attr_native_value := PyStr "Unknown";
          _attr_extra_state_attributes := {[ "raw_value" := PyInt 4 ]} |}.
Proof. reflexivity. Qed.

End PresenterSpec.

(** ** More on the fetch *)

Module FetchEdge.
Import Coordinator Fixtures Vocab Vocab2.

(** X1: one call of the fetch sends exactly one GET for its dataset,
    whatever comes back; it never retries. *)
Theorem fetch_sends_one_request net dataset_id log :
  snd (_async_fetch_dataset net dataset_id log) = log ++ [dataset_id].
Proof. apply FetchSpec.fetch_one_request. Qed.

(** X2: the fetch returns a value only when the GET was answered with
    status 200 and the body decoded as JSON. *)
Theorem fetch_returns_only_on_200_json net dataset_id log v log' :
  _async_fetch_dataset net dataset_id log = (Ok v, log') ->
  exists r body,
    net (List.length log) dataset_id = Ok r /\ status r = 200 /\
    json r = Ok body.
Proof.
  unfold _async_fetch_dataset, try_except, try_except_else, fetch_try_body,
    mbind, session_get, lift, ret, raise.
  destruct (net (List.length log) dataset_id) as [r | e]; simpl.
  - destruct (status r =? 200) eqn:Hst.
    + apply Z.eqb_eq in Hst.
      destruct (json r) as [body | e] eqn:Hj; simpl.
      * intros _. by exists r, body.
      * destruct e; simpl; discriminate.
    + destruct ((status r =? 401) || (status r =? 403)); [discriminate |].
      destruct (status r =? 429); [discriminate |].
      destruct (text r) as [t | e]; simpl; [discriminate |].
      destruct e; simpl; discriminate.
  - destruct e; simpl; discriminate.
Qed.

Lemma fetch_returns_only_on_200_json_witness :
  exists r body,
    net_one_entry (List.length (@nil string)) "209" = Ok r /\ status r = 200 /\
    json r = Ok body.
Proof.
  apply (fetch_returns_only_on_200_json net_one_entry "209" []
           entry_blackout ["209"]).
  reflexivity.
Defined.

(** X3: a 200 response whose body does not decode (the decoder raises an
    [Exception]) is an error of the fetch, a [FingridApiError], not
    "no data". *)
Theorem fetch_200_undecodable_body_raises net dataset_id log r e :
  net (List.length log) dataset_id = Ok r ->
  status r = 200 ->
  json r = Raise e ->
  is_Exception e = true ->
  _async_fetch_dataset net dataset_id log
  = (Raise FingridApiError, log ++ [dataset_id]).
Proof.
  intros Hnet Hst Hjson He.
  unfold _async_fetch_dataset, try_except, try_except_else, fetch_try_body,
    mbind, session_get, lift, ret, raise.
  rewrite Hnet, Hst, Hjson. simpl. by destruct e.
Qed.

Lemma fetch_200_undecodable_body_raises_witness :
  _async_fetch_dataset (net_status 200) "209" []
  = (Raise FingridApiError, [] ++ ["209"]).
Proof.
  apply (fetch_200_undecodable_body_raises (net_status 200) "209" []
           (error_response 200) ClientError);
    reflexivity.
Defined.

(** X4: whatever exception leaves the fetch is a [FingridApiError], unless
    it is no [Exception] (a cancellation), which passes through; the fetch
    never raises [FingridApiAuthError] or [FingridApiRateLimitError]. *)
Theorem fetch_raises_no_typed_error net dataset_id log e log' :
  _async_fetch_dataset net dataset_id log = (Raise e, log') ->
  (e = FingridApiError \/ is_Exception e = false) /\
  e <> FingridApiAuthError /\ e <> FingridApiRateLimitError.
Proof.
  intros H.
  destruct (FetchSpec.fetch_raises_FingridApiError _ _ _ _ _ H) as [-> | He].
  - repeat split; [by left | discriminate | discriminate].
  - repeat split; [by right | |]; intros ->; discriminate.
Qed.

Lemma fetch_raises_no_typed_error_witness :
  (FingridApiError = FingridApiError \/ is_Exception FingridApiError = false) /\
  FingridApiError <> FingridApiAuthError /\
  FingridApiError <> FingridApiRateLimitError.
Proof.
  apply (fetch_raises_no_typed_error (net_status 401) "209" []
           FingridApiError ["209"]).
  reflexivity.
Defined.

End FetchEdge.

(** ** More on the poll cycle *)

Module CycleMore.
Import Coordinator Fixtures Vocab Vocab2.

#[local] Set Warnings "-clear-no-such-hyp".

Section AnyFetch.

Variable fetch : string -> M pyval.

(** An iteration that completes has written the key of its dataset and no
    other. *)
Lemma loop_body_stores d st log st' log' :
  loop_body fetch d st log = (Ok st', log') ->
  exists v, data_results st' = <[d := v]> (data_results st).
Proof.
  unfold loop_body, try_except_else, mbind, ret, raise.
  destruct (fetch d log) as [[v | e] l].
  - destruct v; simpl; intros [= <- _]; simpl; rewrite insert_insert_eq; eauto.
  - destruct e; simpl;
      try (destruct (negb (auth_failure_raised st)); simpl);
      try discriminate;
      destruct (result st) as [r |]; simpl; try discriminate;
      destruct r; simpl; intros [= <- _]; simpl;
      rewrite insert_insert_eq; eauto.
Qed.

Lemma for_each_dom ids : forall st log st' log',
  for_each fetch ids st log = (Ok st', log') ->
  dom (data_results st') = dom (data_results st) ∪ list_to_set ids.
Proof.
  induction ids as [| d ids IH]; intros st log st' log' H; simpl in H.
  - unfold ret in H. injection H as <- _. set_solver.
  - unfold mbind in H.
    destruct (loop_body fetch d st log) as [[st1 | e] l] eqn:Hb;
      [| discriminate].
    apply loop_body_stores in Hb as [v Hv].
    rewrite (IH _ _ _ _ H), Hv, dom_insert_L, list_to_set_cons. set_solver.
Qed.

Lemma for_each_other ids : forall st log st' log' id,
  id ∉ ids ->
  for_each fetch ids st log = (Ok st', log') ->
  data_results st' !! id = data_results st !! id.
Proof.
  induction ids as [| d ids IH]; intros st log st' log' id Hid H; simpl in H.
  - unfold ret in H. by injection H as <- _.
  - unfold mbind in H.
    destruct (loop_body fetch d st log) as [[st1 | e] l] eqn:Hb;
      [| discriminate].
    apply loop_body_stores in Hb as [v Hv].
    apply not_elem_of_cons in Hid as [Hne Hid].
    rewrite (IH _ _ _ _ id Hid H), Hv. by apply lookup_insert_ne.
Qed.

(** A cycle that returns went through its whole loop and returns the
    loop's dict. *)
Lemma update_data_Ok_inv ids log snapshot log' :
  _async_update_data fetch ids log = (Ok snapshot, log') ->
  exists st,
    for_each fetch ids initial_locals log = (Ok st, log') /\
    snapshot = data_results st.
Proof.
  destruct (for_each fetch ids initial_locals log) as [[st | e] l] eqn:H.
  - rewrite (CycleSpec.update_data_publishes fetch ids log st l H).
    intros [= <- <-]. eauto.
  - unfold _async_update_data, mbind. rewrite H. discriminate.
Qed.

(** What follows the loop sends no request. *)
Lemma update_data_log ids log :
  snd (_async_update_data fetch ids log)
  = snd (for_each fetch ids initial_locals log).
Proof.
  unfold _async_update_data, mbind, raise, ret.
  destruct (for_each fetch ids initial_locals log) as [[st | e] l];
    [| reflexivity].
  repeat match goal with
         | |- context [if ?b then _ else _] => destruct b
         end; reflexivity.
Qed.

(** Only an auth error of the fetch makes an iteration escalate. *)
Lemma loop_body_escalates_inv d st log log' :
  loop_body fetch d st log = (Raise ConfigEntryAuthFailed, log') ->
  fetch d log = (Raise FingridApiAuthError, log').
Proof.
  unfold loop_body, try_except_else, mbind, ret, raise.
  destruct (fetch d log) as [[v | e] l].
  - destruct v; simpl; discriminate.
  - destruct e; simpl;
      try (destruct (negb (auth_failure_raised st)); simpl);
      try (intros [= <-]; reflexivity);
      try discriminate;
      destruct (result st) as [r |]; simpl; try discriminate;
      destruct r; simpl; discriminate.
Qed.

Lemma for_each_escalates_inv ids : forall st log log',
  for_each fetch ids st log = (Raise ConfigEntryAuthFailed, log') ->
  exists d l, fetch d l = (Raise FingridApiAuthError, log').
Proof.
  induction ids as [| d ids IH]; intros st log log' H; simpl in H.
  - discriminate.
  - unfold mbind in H.
    destruct (loop_body fetch d st log) as [[st1 | e] l] eqn:Hb.
    + eapply IH; eauto.
    + injection H as -> ->. apply loop_body_escalates_inv in Hb. eauto.
Qed.

End AnyFetch.

(** X5: whenever a cycle returns a snapshot, its keys are exactly the
    enabled dataset ids: every enabled dataset has an entry (a value or
    [None]) and nothing else has.  With no dataset enabled the snapshot is
    empty. *)
Theorem snapshot_keys_are_the_enabled_ids fetch ids log snapshot log' :
  _async_update_data fetch ids log = (Ok snapshot, log') ->
  dom snapshot = list_to_set ids.
Proof.
  intros H. apply update_data_Ok_inv in H as (st & H & ->).
  rewrite (for_each_dom fetch ids _ _ _ _ H). simpl. set_solver.
Qed.

Lemma snapshot_keys_are_the_enabled_ids_witness :
  dom (<["177" := entry_blackout]> ({["209" := entry_blackout]}
         : gmap string pyval))
  = list_to_set ["209"; "177"].
Proof.
  apply (snapshot_keys_are_the_enabled_ids
           (_async_fetch_dataset (net_entry_then_status 429))
           ["209"; "177"] [] _ ["209"; "177"]).
  vm_compute. reflexivity.
Defined.

(** X6: a cycle can only end in [ConfigEntryAuthFailed], in
    [UnboundLocalError], or in an exception of the fetch that is no
    [Exception]; never in [UpdateFailed], and never in the [NameError] of
    line 180. *)
Theorem cycle_raises_only fetch ids log e log' :
  _async_update_data fetch ids log = (Raise e, log') ->
  e = ConfigEntryAuthFailed \/ e = UnboundLocalError \/ is_Exception e = false.
Proof.
  destruct (for_each fetch ids initial_locals log) as [[st | e0] l] eqn:H.
  - rewrite (CycleSpec.update_data_publishes fetch ids log st l H).
    discriminate.
  - unfold _async_update_data, mbind. rewrite H. intros [= <- _].
    eapply CycleSpec.for_each_raises; eauto.
Qed.

Lemma cycle_raises_only_witness :
  UnboundLocalError = ConfigEntryAuthFailed \/
  UnboundLocalError = UnboundLocalError \/
  is_Exception UnboundLocalError = false.
Proof.
  apply (cycle_raises_only (_async_fetch_dataset (net_status 500))
           ["209"] [] UnboundLocalError ["209"]).
  reflexivity.
Defined.

(** X7: against the real fetch no cycle ends in [ConfigEntryAuthFailed],
    whatever the server answers, 401 and 403 included: the
    re-authentication signal is never given. *)
Theorem cycle_never_signals_reauth net ids :
  fst (cycle net ids) <> Raise ConfigEntryAuthFailed.
Proof.
  unfold cycle, _async_update_data, mbind.
  destruct (for_each (_async_fetch_dataset net) ids initial_locals [])
    as [[st | e] l] eqn:H.
  - repeat match goal with
           | |- context [if ?b then _ else _] => destruct b
           end; simpl; discriminate.
  - simpl. intros [= ->].
    apply for_each_escalates_inv in H as (d & l0 & Hf).
    apply FetchSpec.fetch_raises_FingridApiError in Hf as [Hf | Hf];
      discriminate.
Qed.

Section RealFetch.

Variable net : nat -> string -> res response.

Abbreviation fetch := (_async_fetch_dataset net).

Lemma fetch_log d log r log' :
  fetch d log = (r, log') -> log' = log ++ [d].
Proof.
  intros H. pose proof (FetchSpec.fetch_one_request net d log) as Hl.
  rewrite H in Hl. exact Hl.
Qed.

Lemma loop_body_log d st log :
  snd (loop_body fetch d st log) = log ++ [d].
Proof.
  unfold loop_body, try_except_else, mbind, ret, raise.
  destruct (fetch d log) as [[v | e] l] eqn:Hf; apply fetch_log in Hf as ->.
  - destruct v; reflexivity.
  - destruct e; simpl;
      try (destruct (negb (auth_failure_raised st)); simpl);
      try reflexivity;
      destruct (result st) as [r |]; simpl; try reflexivity;
      destruct r; reflexivity.
Qed.

(** The requests of a loop are a beginning of its list of datasets, and the
    whole list when the loop completes. *)
Lemma for_each_log ids : forall st log,
  (exists k, snd (for_each fetch ids st log) = log ++ take k ids) /\
  (forall st', fst (for_each fetch ids st log) = Ok st' ->
     snd (for_each fetch ids st log) = log ++ ids).
Proof.
  induction ids as [| d ids IH]; intros st log; simpl.
  - split; [exists 0%nat |]; intros; simpl; by rewrite app_nil_r.
  - unfold mbind.
    pose proof (loop_body_log d st log) as Hl.
    destruct (loop_body fetch d st log) as [[st1 | e] l]; simpl in Hl; subst l.
    + destruct (IH st1 (log ++ [d])) as [[k Hk] Hall]. split.
      * exists (S k). rewrite Hk. simpl. by rewrite <- app_assoc.
      * intros st' H. rewrite (Hall st' H). by rewrite <- app_assoc.
    + split; [exists 1%nat; simpl; by rewrite take_0 | discriminate].
Qed.

(** In a completed loop over distinct datasets, a dataset whose fetch
    returned [v] is recorded as [v]. *)
Lemma for_each_records ids : forall st log st' log' i id v l,
  NoDup ids ->
  for_each fetch ids st log = (Ok st', log') ->
  ids !! i = Some id ->
  fetch id (log ++ take i ids) = (Ok v, l) ->
  data_results st' !! id = Some v.
Proof.
  induction ids as [| d ids IH];
    intros st log st' log' i id v l Hnd H Hi Hf; [done |].
  apply NoDup_cons in Hnd as [Hd Hnd].
  simpl in H. unfold mbind in H.
  pose proof (loop_body_log d st log) as Hl.
  destruct (loop_body fetch d st log) as [[st1 | e] l1] eqn:Hb;
    [| discriminate].
  simpl in Hl. subst l1.
  destruct i as [| i]; simpl in Hi, Hf.
  - injection Hi as ->. rewrite app_nil_r in Hf.
    rewrite (CycleSpec.loop_body_returned fetch id st log v l Hf) in Hb.
    injection Hb as <-.
    rewrite (for_each_other fetch ids _ _ _ _ id Hd H). simpl.
    apply lookup_insert_eq.
  - eapply (IH st1 (log ++ [d]) st' log' i id v l Hnd H Hi).
    by rewrite <- app_assoc.
Qed.

(** Without a cancellation the fetch raises nothing but
    [FingridApiError]. *)
Lemma fetch_raises_without_cancellation d log e log' :
  no_cancellation (net (List.length log) d) = true ->
  fetch d log = (Raise e, log') ->
  e = FingridApiError.
Proof.
  intros Hnc H.
  destruct (FetchSpec.fetch_raises_FingridApiError _ _ _ _ _ H) as [-> | He];
    [reflexivity |].
  revert H Hnc.
  unfold _async_fetch_dataset, try_except, try_except_else, fetch_try_body,
    mbind, session_get, lift, ret, raise, no_cancellation.
  destruct (net (List.length log) d) as [r | e0]; simpl.
  - destruct (status r =? 200).
    + destruct (json r) as [body | e0]; simpl.
      * destruct body as [| | | | | |d0]; try discriminate.
        destruct (dict_get "data" d0) as [[| | | | |[|x l0]|]|]; discriminate.
      * destruct e0; simpl; intros [= <- _]; done.
    + destruct ((status r =? 401) || (status r =? 403));
        [intros [= <- _]; done |].
      destruct (status r =? 429); [intros [= <- _]; done |].
      destruct (json r) as [body | e1]; destruct (text r) as [t | e0]; simpl;
        try (intros [= <- _]; done);
        destruct e0; simpl; intros [= <- _]; try done;
        rewrite andb_false_r; done.
  - destruct e0; simpl; intros [= <- _]; done.
Qed.

(** Once [result] is bound and nothing is cancelled, the loop
    completes. *)
Lemma for_each_completes ids : forall st log,
  (forall n id, no_cancellation (net n id) = true) ->
  is_Some (result st) ->
  auth_failure_raised st = false ->
  exists st', for_each fetch ids st log = (Ok st', log ++ ids).
Proof.
  induction ids as [| d ids IH]; intros st log Hnc [r Hr] Hflag; simpl.
  - exists st. unfold ret. by rewrite app_nil_r.
  - unfold mbind.
    destruct (fetch d log) as [[v | e] l] eqn:Hf.
    + pose proof (fetch_log _ _ _ _ Hf) as ->.
      rewrite (CycleSpec.loop_body_returned fetch d st log v _ Hf).
      destruct (IH (store d v (store d v (assign_result v st))) (log ++ [d]))
        as [st' Hst']; [exact Hnc | by eexists | exact Hflag |].
      exists st'. rewrite Hst'. by rewrite <- app_assoc.
    + pose proof (fetch_log _ _ _ _ Hf) as ->.
      pose proof (fetch_raises_without_cancellation d log e _ (Hnc _ _) Hf)
        as ->.
      rewrite (CycleSpec.loop_body_error_stale fetch d st log FingridApiError
                 _ r Hf (or_intror eq_refl) Hr).
      destruct (IH (store d r (store d PyNone st)) (log ++ [d]))
        as [st' Hst']; [exact Hnc | by eexists | exact Hflag |].
      exists st'. rewrite Hst'. by rewrite <- app_assoc.
Qed.

End RealFetch.

(** X8: a cycle asks for the enabled datasets in their order, each at most
    once and none else: its requests are a beginning of the enabled list,
    and the whole list when the cycle returns a snapshot. *)
Theorem cycle_requests_in_order net ids :
  (exists k, snd (cycle net ids) = take k ids) /\
  (forall snapshot, fst (cycle net ids) = Ok snapshot ->
     snd (cycle net ids) = ids).
Proof.
  unfold cycle. rewrite update_data_log.
  destruct (for_each_log net ids initial_locals []) as [Hk Hall].
  split; [exact Hk |].
  intros snapshot H.
  destruct (_async_update_data (_async_fetch_dataset net) ids [])
    as [r l] eqn:Hc.
  simpl in H. subst r.
  apply update_data_Ok_inv in Hc as (st & Hst & _).
  apply (Hall st). by rewrite Hst.
Qed.

(** X9: in a cycle over distinct dataset ids that returns a snapshot, every
    dataset whose fetch returned a value is recorded with that value; a
    later failure of another dataset does not change it. *)
Theorem returned_value_is_recorded net ids snapshot log i id v l :
  NoDup ids ->
  cycle net ids = (Ok snapshot, log) ->
  ids !! i = Some id ->
  _async_fetch_dataset net id (take i ids) = (Ok v, l) ->
  snapshot !! id = Some v.
Proof.
  intros Hnd H Hi Hf. unfold cycle in H.
  apply update_data_Ok_inv in H as (st & H & ->).
  eapply (for_each_records net ids initial_locals [] st log i id v l); eauto.
Qed.

Lemma returned_value_is_recorded_witness :
  (<["177" := entry_blackout]> ({["209" := entry_blackout]}
     : gmap string pyval)) !! "209" = Some entry_blackout.
Proof.
  apply (returned_value_is_recorded (net_entry_then_status 500)
           ["209"; "177"] _ ["209"; "177"] 0 "209" entry_blackout ["209"]).
  - apply NoDup_cons. split; [| apply NoDup_singleton].
    intros H. apply list_elem_of_singleton in H. discriminate.
  - vm_compute. reflexivity.
  - reflexivity.
  - reflexivity.
Defined.

(** Leaving the delays aside: when the fetch of the first enabled dataset
    returns (a value or [None]) and no request is cancelled, the loop runs
    to its end and a snapshot is returned, whatever errors the later
    datasets meet. *)
Lemma cycle_completes_after_first_return net d rest v l :
  (forall n id, no_cancellation (net n id) = true) ->
  _async_fetch_dataset net d [] = (Ok v, l) ->
  exists snapshot, cycle net (d :: rest) = (Ok snapshot, d :: rest).
Proof.
  intros Hnc Hf.
  pose proof (fetch_log net _ _ _ _ Hf) as ->.
  assert (exists st, for_each (_async_fetch_dataset net) (d :: rest)
                       initial_locals [] = (Ok st, d :: rest))
    as [st Hst].
  { simpl. unfold mbind.
    rewrite (CycleSpec.loop_body_returned _ d initial_locals [] v _ Hf).
    destruct (for_each_completes net rest
                (store d v (store d v (assign_result v initial_locals)))
                ([] ++ [d]) Hnc) as [st Hst]; [by eexists | reflexivity |].
    exists st. exact Hst. }
  exists (data_results st). unfold cycle.
  by apply CycleSpec.update_data_publishes.
Qed.

End CycleMore.

(** ** More on the presenters *)

Module PresenterMore.
Import Sensor Fixtures Vocab Vocab2.

(** A snapshot with a key is a non-empty dict. *)
Lemma snapshot_with_key_truthy (snapshot : gmap string pyval) k v :
  snapshot !! k = Some v -> snapshot_truthy snapshot = true.
Proof.
  intros H. unfold snapshot_truthy. apply negb_true_iff, bool_decide_eq_false.
  intros Hsz. apply map_size_empty_iff in Hsz. subst snapshot.
  by rewrite lookup_empty in H.
Qed.

(** X11: the grid-frequency sensor passes the observation's value through
    as its state, whatever it is, and takes [api_timestamp] from
    ["endTime"], from ["startTime"] when there is no ["endTime"], and keeps
    the old one when there is neither; no other attribute changes. *)
Theorem frequency_passes_value_and_timestamp
    (s : sensor) (d : list (string * pyval)) :
  class_of s = FingridGridFrequencySensor ->
  exists s',
    _update_state d s = Ok s' /\
    _attr_native_value s' = dict_get_default "value" d /\
    (forall t, dict_get "endTime" d = Some t ->
       _attr_extra_state_attributes s' !! "api_timestamp" = Some t) /\
    (forall t, dict_get "endTime" d = None ->
       dict_get "startTime" d = Some t ->
       _attr_extra_state_attributes s' !! "api_timestamp" = Some t) /\
    (dict_get "endTime" d = None -> dict_get "startTime" d = None ->
       _attr_extra_state_attributes s' = _attr_extra_state_attributes s) /\
    (forall k, k <> "api_timestamp" ->
       _attr_extra_state_attributes s' !! k
       = _attr_extra_state_attributes s !! k).
Proof.
  intros Hc. unfold _update_state, FingridSensor_update_state. rewrite Hc.
  destruct (dict_get "endTime" d) as [t |].
  - eexists. split; [reflexivity |]. simpl. repeat split.
    + intros t' [= <-]. apply lookup_insert_eq.
    + discriminate.
    + discriminate.
    + intros k Hk. by apply lookup_insert_ne.
  - destruct (dict_get "startTime" d) as [t |].
    + eexists. split; [reflexivity |]. simpl. repeat split.
      * discriminate.
      * intros t' _ [= <-]. apply lookup_insert_eq.
      * discriminate.
      * intros k Hk. by apply lookup_insert_ne.
    + eexists. split; [reflexivity |]. simpl. repeat split; discriminate.
Qed.

Lemma frequency_passes_value_and_timestamp_witness :
  exists s',
    _update_state [("value", PyFloat float_2_5); ("startTime", PyStr "a");
                   ("endTime", PyStr "b")]
      (fresh_sensor FingridGridFrequencySensor "177") = Ok s' /\
    _attr_native_value s' = PyFloat float_2_5 /\
    _attr_extra_state_attributes s' !! "api_timestamp" = Some (PyStr "b").
Proof.
  destruct (frequency_passes_value_and_timestamp
              (fresh_sensor FingridGridFrequencySensor "177")
              [("value", PyFloat float_2_5); ("startTime", PyStr "a");
               ("endTime", PyStr "b")] eq_refl)
    as (s' & Hs & Hv & Ht & _).
  exists s'. split; [exact Hs |]. split; [exact Hv |].
  apply Ht. reflexivity.
Defined.

(** X12: a categorical sensor's update writes no attribute but
    [raw_value]; in particular it never sets [api_timestamp], whether or
    not the observation carries ["endTime"] or ["startTime"]. *)
Theorem categorical_update_writes_only_raw_value
    (s s' : sensor) (d : list (string * pyval)) (k : string) :
  categorical (class_of s) = true ->
  _update_state d s = Ok s' ->
  k <> "raw_value" ->
  _attr_extra_state_attributes s' !! k = _attr_extra_state_attributes s !! k.
Proof.
  intros Hcat H Hk. revert H. unfold _update_state.
  destruct (class_of s); try discriminate;
    [ unfold FingridPowerSystemStateSensor_update_state
    | unfold FingridElectricityShortageSensor_update_state ];
    (destruct (is_int_or_float (dict_get_default "value" d));
     [ destruct (py_int (dict_get_default "value" d)); [| discriminate] |]);
    intros [= <-]; simpl; try reflexivity; by apply lookup_insert_ne.
Qed.

Lemma categorical_update_writes_only_raw_value_witness :
  _attr_extra_state_attributes sensor_after_blackout !! "api_timestamp"
  = _attr_extra_state_attributes
      (fresh_sensor FingridPowerSystemStateSensor "209") !! "api_timestamp".
Proof.
  apply (categorical_update_writes_only_raw_value
           (fresh_sensor FingridPowerSystemStateSensor "209")
           sensor_after_blackout
           [("value", PyInt 4); ("startTime", PyStr "2024-01-01T11:57:00Z");
            ("endTime", PyStr "2024-01-01T12:00:00Z")]
           "api_timestamp");
    [reflexivity | vm_compute; reflexivity | discriminate].
Defined.

(** X13: when the snapshot holds a dict without a ["value"] key for the
    sensor's dataset (the empty dict included), the update callback leaves
    the sensor untouched, and after a successful cycle the sensor is
    available and shows the native value of an earlier snapshot. *)
Theorem observation_without_value_shows_previous_state
    (c : coordinator) (s : sensor) (snapshot : gmap string pyval)
    (d : list (string * pyval)) :
  data c = Some snapshot ->
  snapshot !! _dataset_id s = Some (PyDict d) ->
  dict_mem "value" d = false ->
  last_update_success c = true ->
  _handle_coordinator_update c s = Ok s /\
  available c s = true /\
  presented_state c s = StateOf (_attr_native_value s).
Proof.
  intros Hdata Hd Hmem Hok.
  assert (Hav : available c s = true).
  { unfold available. by rewrite Hdata, Hd, Hok. }
  repeat split.
  - unfold _handle_coordinator_update. rewrite Hdata.
    rewrite (snapshot_with_key_truthy _ _ _ Hd), Hd.
    unfold update_from. destruct (truthy (PyDict d)); [| reflexivity].
    by rewrite Hmem.
  - exact Hav.
  - unfold presented_state. by rewrite Hav.
Qed.

Lemma observation_without_value_shows_previous_state_witness :
  let c := coordinator_with {[ "209" := PyDict [("endTime", PyStr "b")] ]} in
  _handle_coordinator_update c sensor_after_blackout = Ok sensor_after_blackout /\
  available c sensor_after_blackout = true /\
  presented_state c sensor_after_blackout = StateOf (PyStr "Blackout").
Proof.
  cbv zeta.
  apply (observation_without_value_shows_previous_state
           (coordinator_with {[ "209" := PyDict [("endTime", PyStr "b")] ]})
           sensor_after_blackout
           {[ "209" := PyDict [("endTime", PyStr "b")] ]}
           [("endTime", PyStr "b")]);
    vm_compute; reflexivity.
Defined.


(** X15: when the snapshot holds a non-zero number (or [True]) for the
    sensor's dataset, as the fetch returns it for a ["data"] list of
    numbers, the update callback raises [TypeError]. *)
Theorem callback_raises_on_number_observation
    (c : coordinator) (s : sensor) (snapshot : gmap string pyval)
    (v : pyval) :
  data c = Some snapshot ->
  snapshot !! _dataset_id s = Some v ->
  is_int_or_float v = true ->
  truthy v = true ->
  _handle_coordinator_update c s = Raise TypeError.
Proof.
  intros Hdata Hv Hnum Htruthy.
  unfold _handle_coordinator_update. rewrite Hdata.
  rewrite (snapshot_with_key_truthy _ _ _ Hv), Hv.
  unfold update_from. rewrite Htruthy.
  by destruct v.
Qed.

Lemma callback_raises_on_number_observation_witness :
  _handle_coordinator_update
    (coordinator_with {[ "177" := PyFloat float_2_5 ]})
    (fresh_sensor FingridGridFrequencySensor "177") = Raise TypeError.
Proof.
  apply (callback_raises_on_number_observation
           (coordinator_with {[ "177" := PyFloat float_2_5 ]})
           (fresh_sensor FingridGridFrequencySensor "177")
           {[ "177" := PyFloat float_2_5 ]} (PyFloat float_2_5));
    vm_compute; reflexivity.
Defined.

End PresenterMore.

(** ** Properties of the sensor set-up *)

Module PlatformSpec.
Import Coordinator Sensor Fixtures Platform.

Lemma list_ascii_of_string_app s1 s2 :
  list_ascii_of_string (s1 +:+ s2)
  = list_ascii_of_string s1 ++ list_ascii_of_string s2.
Proof. induction s1 as [| a s1 IH]; simpl; [done | by rewrite <- IH]. Qed.

Lemma list_ascii_of_string_inj s1 s2 :
  list_ascii_of_string s1 = list_ascii_of_string s2 -> s1 = s2.
Proof.
  intros H. rewrite <- (string_of_list_ascii_of_string s1),
    <- (string_of_list_ascii_of_string s2). by rewrite H.
Qed.

Lemma length_list_ascii s :
  List.length (list_ascii_of_string s) = String.length s.
Proof. induction s as [| a s IH]; simpl; [done | by rewrite IH]. Qed.

(** Two unique ids built from suffixes of equal length agree only when
    both parts agree. *)
Lemma unique_id_parts e1 d1 e2 d2 :
  String.length d1 = String.length d2 ->
  e1 +:+ "_" +:+ d1 = e2 +:+ "_" +:+ d2 ->
  e1 = e2 /\ d1 = d2.
Proof.
  intros Hlen H. apply (f_equal list_ascii_of_string) in H.
  rewrite !list_ascii_of_string_app in H.
  apply app_inj_2 in H as [H1 H2].
  - apply list_ascii_of_string_inj in H1.
    apply app_inj_2 in H2 as [_ H2];
      [| by rewrite !length_list_ascii].
    by apply list_ascii_of_string_inj in H2.
  - rewrite !length_app, !length_list_ascii. by rewrite Hlen.
Qed.

(** Every sensor set up is for an enabled dataset, one of the three known
    ones, and built by [new_sensor] for the entry. *)
Lemma entities_to_add_elem entry_id enabled e :
  e ∈ entities_to_add entry_id enabled ->
  exists c d,
    e = new_sensor c entry_id d /\ d ∈ enabled /\
    (c, d) ∈ [ (FingridPowerSystemStateSensor, "209");
               (FingridGridFrequencySensor, "177");
               (FingridElectricityShortageSensor, "336") ].
Proof.
  unfold entities_to_add, DATASET_ID_POWER_SYSTEM_STATE,
    DATASET_ID_GRID_FREQUENCY, DATASET_ID_ELECTRICITY_SHORTAGE_STATUS.
  repeat case_bool_decide; simpl; intros He;
    repeat (apply elem_of_cons in He as [-> | He];
            [eexists _, _; split; [reflexivity |]; split; [eassumption |];
             set_solver |]);
    by apply elem_of_nil in He.
Qed.

(** X16: the set-up adds one sensor per known dataset that is enabled, in
    the order power-system, frequency, shortage, each of the class of its
    dataset, whatever the order of the enabled list, and ignores duplicates
    and ids it does not know; when none of the three is enabled it does not
    call [async_add_entities]. *)
Theorem one_sensor_per_enabled_known_dataset entry_id (enabled : list string) :
  entities_to_add entry_id enabled
  = (fun p => new_sensor p.1 entry_id p.2) <$>
      filter (fun p => p.2 ∈ enabled)
        [ (FingridPowerSystemStateSensor, "209");
          (FingridGridFrequencySensor, "177");
          (FingridElectricityShortageSensor, "336") ] /\
  (async_setup_entry entry_id enabled = None <->
   ("209" ∉ enabled) /\ ("177" ∉ enabled) /\ ("336" ∉ enabled)).
Proof.
  unfold async_setup_entry, entities_to_add, DATASET_ID_POWER_SYSTEM_STATE,
    DATASET_ID_GRID_FREQUENCY, DATASET_ID_ELECTRICITY_SHORTAGE_STATUS.
  split.
  - rewrite !filter_cons, filter_nil. simpl.
    repeat case_bool_decide; repeat case_decide; done.
  - repeat case_bool_decide; simpl; split; try done; intros (? & ? & ?); done.
Qed.

(** X17: the unique id of a sensor determines its config entry and its
    dataset: two sensors set up, for the same or for different entries,
    with equal unique ids have the same entry id and the same dataset
    id. *)
Theorem unique_id_determines_entry_and_dataset
    entry1 enabled1 entry2 enabled2 e1 e2 :
  e1 ∈ entities_to_add entry1 enabled1 ->
  e2 ∈ entities_to_add entry2 enabled2 ->
  _attr_unique_id e1 = _attr_unique_id e2 ->
  entry1 = entry2 /\
  _dataset_id (sensor_of e1) = _dataset_id (sensor_of e2).
Proof.
  intros H1 H2 Hid.
  apply entities_to_add_elem in H1 as (c1 & d1 & -> & _ & Hk1).
  apply entities_to_add_elem in H2 as (c2 & d2 & -> & _ & Hk2).
  simpl in *. apply unique_id_parts; [| exact Hid].
  repeat (apply elem_of_cons in Hk1 as [[= -> ->] | Hk1]);
    try (by apply elem_of_nil in Hk1);
    repeat (apply elem_of_cons in Hk2 as [[= -> ->] | Hk2]);
    try (by apply elem_of_nil in Hk2); reflexivity.
Qed.

Lemma unique_id_determines_entry_and_dataset_witness :
  "entry" = "entry" /\
  _dataset_id (sensor_of (new_sensor FingridGridFrequencySensor "entry" "177"))
  = _dataset_id (sensor_of (new_sensor FingridGridFrequencySensor "entry" "177")).
Proof.
  apply (unique_id_determines_entry_and_dataset
           "entry" ["336"; "177"] "entry" ["177"; "177"; "1"]);
    [vm_compute; set_solver | vm_compute; set_solver | reflexivity].
Defined.

(** X18: after a cycle over the enabled datasets has returned a snapshot,
    the snapshot has a key for the dataset of every sensor set up from the
    same list; such a sensor is unavailable only when the value is [None] or
    the coordinator reports a failed update. *)
Theorem sensors_find_their_key_in_the_snapshot
    fetch entry_id (enabled : list string) log snapshot log' e :
  e ∈ entities_to_add entry_id enabled ->
  _async_update_data fetch enabled log = (Ok snapshot, log') ->
  exists v,
    snapshot !! _dataset_id (sensor_of e) = Some v /\
    available (coordinator_with snapshot) (sensor_of e) = is_not_None v.
Proof.
  intros He H.
  apply entities_to_add_elem in He as (c & d & -> & Hd & _).
  apply CycleMore.update_data_Ok_inv in H as (st & H & ->).
  assert (Hdom : d ∈ dom (data_results st)).
  { rewrite (CycleMore.for_each_dom fetch enabled _ _ _ _ H).
    apply elem_of_union_r, elem_of_list_to_set, Hd. }
  apply elem_of_dom in Hdom as [v Hv].
  exists v. split; [exact Hv |].
  unfold available. simpl. by rewrite Hv.
Qed.

Lemma sensors_find_their_key_in_the_snapshot_witness :
  exists v,
    ({[ "209" := PyNone ]} : gmap string pyval)
      !! _dataset_id (sensor_of (new_sensor FingridPowerSystemStateSensor "entry" "209"))
    = Some v /\
    available (coordinator_with {[ "209" := PyNone ]})
      (sensor_of (new_sensor FingridPowerSystemStateSensor "entry" "209"))
    = is_not_None v.
Proof.
  apply (sensors_find_their_key_in_the_snapshot
           (_async_fetch_dataset net_empty_data) "entry" ["209"] []
           _ ["209"]);
    [vm_compute; set_solver | vm_compute; reflexivity].
Defined.

End PlatformSpec.

(** ** Properties of the config flow *)

Module ConfigFlowSpec.
Import Coordinator Fixtures ConfigFlow.

(** X19: the user step creates a config entry exactly when a key was
    entered, the validation GET was answered 200 and both host calls
    returned; the entry is titled "Fingrid" and holds the key as entered.
    No other status, and no failure, creates an entry. *)
Theorem entry_created_only_after_200 (h : flow_host)
    (user_input : option string) (title key : string) :
  async_step_user h user_input = StepReturns (CreateEntry title key) <->
  user_input = Some key /\ title = "Fingrid" /\
  (exists r, validation_get h = Ok r /\ status r = 200) /\
  async_set_unique_id h key = None /\
  _abort_if_unique_id_configured h = None.
Proof.
  unfold async_step_user, validation_try. split.
  - destruct user_input as [api_key |]; [| discriminate].
    destruct (validation_get h) as [r | e].
    + destruct (status r =? 200) eqn:Hst.
      * apply Z.eqb_eq in Hst.
        destruct (async_set_unique_id h api_key) as [e |] eqn:Hs.
        { destruct e as [[] | reason]; simpl; discriminate. }
        destruct (_abort_if_unique_id_configured h) as [e |] eqn:Ha.
        { destruct e as [[] | reason]; simpl; discriminate. }
        intros [= <- <-]. repeat split; eauto.
      * destruct ((status r =? 401) || (status r =? 403)); [discriminate |].
        destruct (text r) as [t | e]; [discriminate |].
        destruct e; simpl; discriminate.
    + destruct e; simpl; discriminate.
  - intros (-> & -> & (r & -> & Hst) & Hs & Ha).
    apply Z.eqb_eq in Hst. by rewrite Hst, Hs, Ha.
Qed.

(** X20: a key the server answers with 401 or 403 creates no entry: the
    form comes back with the error [invalid_api_key]. *)
Theorem rejected_key_shows_invalid_api_key (h : flow_host)
    (key : string) (r : response) :
  validation_get h = Ok r ->
  status r = 401 \/ status r = 403 ->
  async_step_user h (Some key)
  = StepReturns (ShowForm "user" {[ "base" := "invalid_api_key" ]}).
Proof.
  intros Hget Hst. unfold async_step_user, validation_try. rewrite Hget.
  by destruct Hst as [-> | ->].
Qed.

Lemma rejected_key_shows_invalid_api_key_witness :
  async_step_user
    {| validation_get := Ok (error_response 403);
       async_set_unique_id := fun _ => None;
       _abort_if_unique_id_configured := None |} (Some "key")
  = StepReturns (ShowForm "user" {[ "base" := "invalid_api_key" ]}).
Proof.
  apply (rejected_key_shows_invalid_api_key _ "key" (error_response 403));
    [reflexivity | right; reflexivity].
Defined.

(** X21: when the validation GET fails with a client error or a timeout,
    or is answered with a status other than 200, 401 and 403 whose body can
    be read, the form comes back with the error [cannot_connect]. *)
Theorem unreachable_server_shows_cannot_connect (h : flow_host)
    (key : string) :
  validation_get h = Raise ClientError \/
  validation_get h = Raise TimeoutError \/
  (exists r t, validation_get h = Ok r /\ text r = Ok t /\
     status r <> 200 /\ status r <> 401 /\ status r <> 403) ->
  async_step_user h (Some key)
  = StepReturns (ShowForm "user" {[ "base" := "cannot_connect" ]}).
Proof.
  unfold async_step_user, validation_try.
  intros [-> | [-> | (r & t & -> & Ht & H200 & H401 & H403)]];
    [reflexivity | reflexivity |].
  apply Z.eqb_neq in H200, H401, H403.
  by rewrite H200, H401, H403, Ht.
Qed.

Lemma unreachable_server_shows_cannot_connect_witness :
  async_step_user
    {| validation_get := Ok (error_response 500);
       async_set_unique_id := fun _ => None;
       _abort_if_unique_id_configured := None |} (Some "key")
  = StepReturns (ShowForm "user" {[ "base" := "cannot_connect" ]}).
Proof.
  apply (unreachable_server_shows_cannot_connect _ "key").
  right. right. exists (error_response 500), "error".
  repeat split; discriminate.
Defined.

(** X22: when the key is accepted (200) but the host ends the flow with
    [AbortFlow], because the unique id is already configured or in
    progress, the [except Exception] of the step catches the abort: the
    form comes back with the error [unknown] instead of the flow
    aborting. *)
Theorem abort_is_shown_as_unknown_error (h : flow_host)
    (key reason : string) (r : response) :
  validation_get h = Ok r ->
  status r = 200 ->
  async_set_unique_id h key = Some (AbortFlow reason) \/
  (async_set_unique_id h key = None /\
   _abort_if_unique_id_configured h = Some (AbortFlow reason)) ->
  async_step_user h (Some key)
  = StepReturns (ShowForm "user" {[ "base" := "unknown" ]}).
Proof.
  intros Hget Hst Habort. unfold async_step_user, validation_try.
  rewrite Hget, Hst. simpl.
  by destruct Habort as [-> | [-> ->]].
Qed.

Lemma abort_is_shown_as_unknown_error_witness :
  async_step_user
    {| validation_get := Ok (ok_response (PyDict []));
       async_set_unique_id := fun _ => None;
       _abort_if_unique_id_configured :=
         Some (AbortFlow "already_configured") |} (Some "key")
  = StepReturns (ShowForm "user" {[ "base" := "unknown" ]}).
Proof.
  apply (abort_is_shown_as_unknown_error _ "key" "already_configured"
           (ok_response (PyDict [])));
    [reflexivity | reflexivity | right; split; reflexivity].
Defined.

(** X23: the user step lets no [Exception] out: whatever the validation
    GET or the host calls raise, the step returns a form or an entry,
    unless what was raised is no [Exception] (a cancellation), which passes
    through. *)
Theorem user_step_raises_no_Exception (h : flow_host)
    (user_input : option string) (e : flow_exn) :
  async_step_user h user_input = StepRaises e ->
  flow_is_Exception e = false.
Proof.
  unfold async_step_user.
  destruct user_input as [api_key |]; [| discriminate].
  destruct (validation_try h api_key) as [r | errors | e0];
    [discriminate | discriminate |].
  destruct e0 as [e0 | reason].
  - destruct e0; simpl; try discriminate; by intros [= <-].
  - simpl. discriminate.
Qed.

Lemma user_step_raises_no_Exception_witness :
  flow_is_Exception (PyExn CancelledError) = false.
Proof.
  apply (user_step_raises_no_Exception
           {| validation_get := Raise CancelledError;
              async_set_unique_id := fun _ => None;
              _abort_if_unique_id_configured := None |}
           (Some "key") (PyExn CancelledError)).
  reflexivity.
Defined.

End ConfigFlowSpec.

(** ** Properties of the registry of coordinators *)

Module RegistrySpec.
Import Registry.

Section HassData.

Context {C E : Type}.

Implicit Types (data : gmap string (gmap string C)) (c : C).

Lemma empty_of_size_0 (entries : gmap string C) :
  bool_decide (size entries = 0%nat) = true -> entries = ∅.
Proof. intros H. apply bool_decide_eq_true in H. by apply map_size_empty_iff. Qed.

Lemma nonempty_of_size (entries : gmap string C) :
  bool_decide (size entries = 0%nat) = false -> entries <> ∅.
Proof.
  intros H Hempty. apply bool_decide_eq_false in H. apply H.
  by apply map_size_empty_iff.
Qed.

(** X24: a set-up whose two host calls return registers the coordinator
    under the entry's id, answers [True], and changes nothing else: the
    other entries of the domain and the other domains stay as they were. *)
Theorem setup_registers_the_coordinator data entry_id c :
  (async_setup_entry C E data entry_id c None None).2 = inr true /\
  registered C (async_setup_entry C E data entry_id c None None).1 entry_id
  = Some c /\
  (forall other, other <> entry_id ->
     registered C (async_setup_entry C E data entry_id c None None).1 other
     = registered C data other) /\
  (forall domain, domain <> DOMAIN ->
     (async_setup_entry C E data entry_id c None None).1 !! domain
     = data !! domain).
Proof.
  unfold async_setup_entry, registered. simpl.
  destruct (data !! DOMAIN) as [entries |] eqn:Hd; simpl;
    rewrite ?Hd, ?lookup_insert_eq; simpl; repeat split.
  - apply lookup_insert_eq.
  - intros other Hne. by apply lookup_insert_ne.
  - intros domain Hne. by rewrite lookup_insert_ne.
  - apply lookup_insert_eq.
  - intros other Hne. rewrite lookup_insert_ne by done. apply lookup_empty.
  - intros domain Hne. by rewrite !lookup_insert_ne.
Qed.

(** X25: setting an entry up and unloading it again gives back the
    [hass.data] one started from, provided the entry was not registered
    before and the domain's dict was not there empty. *)
Theorem setup_then_unload_restores data entry_id c :
  registered C data entry_id = None ->
  data !! DOMAIN <> Some ∅ ->
  (async_unload_entry C
     (async_setup_entry C E data entry_id c None None).1 entry_id true).1
  = data.
Proof.
  unfold async_setup_entry, async_unload_entry, registered.
  intros Hreg Hne.
  destruct (data !! DOMAIN) as [entries |] eqn:Hd;
    cbn [fst snd default from_option id mbind option_bind] in *.
  - rewrite ?Hd. cbn [default from_option id].
    rewrite (lookup_insert_eq data DOMAIN).
    rewrite (lookup_insert_eq entries entry_id).
    rewrite (delete_insert_id entries entry_id c Hreg).
    destruct (bool_decide (size entries = 0%nat)) eqn:Hsz.
    + apply empty_of_size_0 in Hsz. by subst entries.
    + cbn [fst]. rewrite insert_insert_eq. by apply insert_id.
  - rewrite (lookup_insert_eq data DOMAIN). cbn [default from_option id].
    rewrite (lookup_insert_eq (<[DOMAIN:=∅]> data) DOMAIN).
    rewrite (lookup_insert_eq (∅ : gmap string C) entry_id).
    rewrite delete_insert_id by apply lookup_empty.
    rewrite bool_decide_eq_true_2 by apply map_size_empty.
    cbn [fst]. rewrite delete_insert_eq, delete_insert_eq.
    by apply delete_id.
Qed.

(** X26: a set-up whose first refresh raises registers nothing and passes
    the exception on; but when the domain had no dict yet, it leaves an
    empty one behind. *)
Theorem failed_first_refresh_registers_nothing
    data entry_id c (e : E) (forward_setups : option E) :
  (async_setup_entry C E data entry_id c (Some e) forward_setups).2 = inl e /\
  registered C
    (async_setup_entry C E data entry_id c (Some e) forward_setups).1 entry_id
  = registered C data entry_id /\
  (is_Some (data !! DOMAIN) ->
   (async_setup_entry C E data entry_id c (Some e) forward_setups).1 = data) /\
  (data !! DOMAIN = None ->
   (async_setup_entry C E data entry_id c (Some e) forward_setups).1 !! DOMAIN
   = Some ∅).
Proof.
  unfold async_setup_entry, registered.
  destruct (data !! DOMAIN) as [entries |] eqn:Hd; cbn [fst snd].
  - rewrite Hd. split; [done |]. split; [done |]. split; [done | discriminate].
  - rewrite (lookup_insert_eq data DOMAIN). cbn [mbind option_bind].
    split; [done |]. split; [apply lookup_empty |].
    split; [by intros [? ?] | done].
Qed.

(** X27: an unload that the platforms agree to removes the entry's
    coordinator and keeps the other entries; when it removed one, it does
    not leave an empty dict under the domain.  An unload the platforms
    refuse changes nothing. *)
Theorem unload_removes_only_the_entry data entry_id :
  registered C (async_unload_entry C data entry_id true).1 entry_id = None /\
  (forall other, other <> entry_id ->
     registered C (async_unload_entry C data entry_id true).1 other
     = registered C data other) /\
  (is_Some (registered C data entry_id) ->
   (async_unload_entry C data entry_id true).1 !! DOMAIN <> Some ∅) /\
  async_unload_entry C data entry_id false = (data, false).
Proof.
  unfold async_unload_entry, registered.
  destruct (data !! DOMAIN) as [entries |] eqn:Hd; cbn [mbind option_bind].
  - destruct (entries !! entry_id) as [c0 |] eqn:He.
    + destruct (bool_decide (size (delete entry_id entries) = 0%nat)) eqn:Hsz;
        cbn [fst].
      * apply empty_of_size_0 in Hsz.
        rewrite (lookup_delete_eq data DOMAIN). cbn [mbind option_bind].
        split; [done |]. split; [| split; [done | done]].
        intros other Hne.
        rewrite <- (lookup_delete_ne entries entry_id other) by done.
        rewrite Hsz. by rewrite lookup_empty.
      * apply nonempty_of_size in Hsz.
        rewrite (lookup_insert_eq data DOMAIN). cbn [mbind option_bind].
        split; [apply lookup_delete_eq |].
        split; [intros other Hne; by apply lookup_delete_ne |].
        split; [| done]. intros _ [= H]. by apply Hsz.
    + cbn [fst]. rewrite Hd. cbn [mbind option_bind]. rewrite He.
      split; [done |]. split; [done |]. split; [| done]. by intros [? ?].
  - cbn [fst]. rewrite Hd. cbn [mbind option_bind].
    split; [done |]. split; [done |]. split; [| done]. by intros [? ?].
Qed.

End HassData.

Lemma setup_then_unload_restores_witness :
  (async_unload_entry nat
     (async_setup_entry nat nat (∅ : gmap string (gmap string nat))
        "entry" 7%nat None None).1 "entry" true).1
  = ∅.
Proof.
  apply (@setup_then_unload_restores nat nat ∅ "entry" 7%nat);
    [reflexivity | by rewrite lookup_empty].
Defined.

End RegistrySpec.

(** ** Properties of the options *)

Module OptionsSpec.
Import Fixtures Options.

(** X28: for every interval the options form accepts (1 to 60 minutes, or
    none stored, which counts as 5), the coordinator is configured with the
    enabled list of the options (or ["209"] when none is stored) and an
    update interval of that many minutes, and its cycle warns about rate
    limiting exactly when the interval is under 3 minutes. *)
Theorem configured_interval_and_warning (o : options) :
  MIN_UPDATE_INTERVAL_MINUTES
    <= default DEFAULT_UPDATE_INTERVAL_MINUTES (update_interval o)
    <= MAX_UPDATE_INTERVAL_MINUTES ->
  exists cfg,
    FingridDataUpdateCoordinator_init o = Ok cfg /\
    enabled_dataset_ids cfg = default ["209"] (enabled_sensors o) /\
    days (resolved_update_interval cfg) * 86400
      + seconds (resolved_update_interval cfg)
    = default DEFAULT_UPDATE_INTERVAL_MINUTES (update_interval o) * 60 /\
    microseconds (resolved_update_interval cfg) = 0 /\
    warns_about_interval cfg
    = bool_decide
        (default DEFAULT_UPDATE_INTERVAL_MINUTES (update_interval o) < 3).
Proof.
  unfold MIN_UPDATE_INTERVAL_MINUTES, MAX_UPDATE_INTERVAL_MINUTES,
    DEFAULT_UPDATE_INTERVAL_MINUTES, FingridDataUpdateCoordinator_init,
    timedelta_minutes.
  change (seconds DEFAULT_UPDATE_INTERVAL / 60) with 5.
  set (m := default 5 (update_interval o)). intros Hm.
  assert (Hd : m * 60 / 86400 = 0) by (apply Z.div_small; lia).
  assert (Hs : (m * 60) mod 86400 = m * 60) by (apply Z.mod_small; lia).
  rewrite Hd, Hs. simpl.
  eexists. split; [reflexivity |]. simpl.
  repeat split.
  unfold warns_about_interval, total_seconds_lt. simpl.
  change (10 ^ 6) with 1000000.
  destruct (bool_decide (m < 3)) eqn:Hb.
  - apply bool_decide_eq_true in Hb. apply Z.ltb_lt. lia.
  - apply bool_decide_eq_false in Hb. apply Z.ltb_ge. lia.
Qed.

Lemma configured_interval_and_warning_witness :
  exists cfg,
    FingridDataUpdateCoordinator_init
      {| enabled_sensors := None; update_interval := Some 2 |} = Ok cfg /\
    enabled_dataset_ids cfg = ["209"] /\
    days (resolved_update_interval cfg) * 86400
      + seconds (resolved_update_interval cfg) = 2 * 60 /\
    microseconds (resolved_update_interval cfg) = 0 /\
    warns_about_interval cfg = true.
Proof.
  apply (configured_interval_and_warning
           {| enabled_sensors := None; update_interval := Some 2 |}).
  vm_compute. split; discriminate.
Defined.

(** X29: the options form is pre-filled with the configuration the
    coordinator runs with: the same enabled datasets, and the number of
    minutes that makes the coordinator's update interval, also when an
    option is not stored and each side falls back on its own default. *)
Theorem options_form_shows_the_running_configuration
    (o : options) (cfg : coordinator_config) :
  FingridDataUpdateCoordinator_init o = Ok cfg ->
  exists form,
    async_step_init o None = inr form /\
    current_enabled_sensors form = enabled_dataset_ids cfg /\
    timedelta_minutes (current_update_interval form)
    = Ok (resolved_update_interval cfg).
Proof.
  unfold FingridDataUpdateCoordinator_init, async_step_init.
  change (seconds DEFAULT_UPDATE_INTERVAL / 60)
    with DEFAULT_UPDATE_INTERVAL_MINUTES.
  destruct (timedelta_minutes
              (default DEFAULT_UPDATE_INTERVAL_MINUTES (update_interval o)))
    as [td | e] eqn:Htd; [| discriminate].
  intros [= <-]. eexists. split; [reflexivity |]. simpl.
  split; [reflexivity | exact Htd].
Qed.

Lemma options_form_shows_the_running_configuration_witness :
  exists form,
    async_step_init {| enabled_sensors := Some ["177"];
                       update_interval := None |} None = inr form /\
    current_enabled_sensors form = ["177"] /\
    timedelta_minutes (current_update_interval form)
    = Ok DEFAULT_UPDATE_INTERVAL.
Proof.
  apply (options_form_shows_the_running_configuration
           {| enabled_sensors := Some ["177"]; update_interval := None |}
           {| enabled_dataset_ids := ["177"];
              resolved_update_interval := DEFAULT_UPDATE_INTERVAL |}).
  reflexivity.
Defined.

End OptionsSpec.

(** ** The auth failure, end to end *)

Module CycleAuthSpec.
Import Coordinator Fixtures.

(** C3: against the real fetch an auth failure of the server never
    escalates.  When every GET is answered 401 (or 403), the fetch of the
    first dataset raises [FingridApiError], the loop downgrades it, and the
    cycle ends in [UnboundLocalError]; no [ConfigEntryAuthFailed] is
    raised.  When "209" is answered with a data point and the later GETs
    with 401 (or 403), the cycle goes on to request every remaining dataset
    and returns a snapshot that holds the data point of "209" under all
    three ids. *)
Theorem auth_failure_does_not_escalate :
  let stale : gmap string pyval :=
    <["336" := entry_blackout]>
      (<["177" := entry_blackout]> {["209" := entry_blackout]}) in
  cycle (net_status 401) ["209"; "177"] = (Raise UnboundLocalError, ["209"]) /\
  cycle (net_status 403) ["209"; "177"] = (Raise UnboundLocalError, ["209"]) /\
  cycle (net_entry_then_status 401) ["209"; "177"; "336"]
    = (Ok stale, ["209"; "177"; "336"]) /\
  cycle (net_entry_then_status 403) ["209"; "177"; "336"]
    = (Ok stale, ["209"; "177"; "336"]).
Proof. cbv zeta. repeat split; vm_compute; reflexivity. Qed.

End CycleAuthSpec.

(** ** The cycle with its delays *)

Module PacedSpec.
Import Coordinator Fixtures Vocab2 Paced.

Section Through.

Variable fetch : string -> M pyval.
Variable sleep : nat -> res unit.
Hypothesis sleep_returns : forall n, sleep n = Ok tt.

(** When every delay runs to its end, the cycle with the delays is the
    cycle without them. *)
Lemma loop_body_paced_through d st log :
  loop_body_paced fetch sleep d st log = loop_body fetch d st log.
Proof.
  unfold loop_body_paced, loop_body, mbind, asyncio_sleep.
  destruct (try_except_else (fetch d) _ _ log) as [[st1 | e] l];
    [| reflexivity].
  by rewrite sleep_returns.
Qed.

Lemma for_each_paced_through ids : forall st log,
  for_each_paced fetch sleep ids st log = for_each fetch ids st log.
Proof.
  induction ids as [| d ids IH]; intros st log; simpl; [reflexivity |].
  unfold mbind. rewrite loop_body_paced_through.
  destruct (loop_body fetch d st log) as [[st1 | e] l];
    [apply IH | reflexivity].
Qed.

Lemma update_data_paced_through ids log :
  _async_update_data_paced fetch sleep ids log
  = _async_update_data fetch ids log.
Proof.
  unfold _async_update_data_paced, _async_update_data, mbind.
  by rewrite for_each_paced_through.
Qed.

End Through.

(** A delay that is cancelled ends the cycle there, in [CancelledError]
    and without a snapshot, though every request was answered. *)
Example cancelled_delay_ends_the_cycle :
  cycle_paced net_one_entry (cancelled_after 1) ["209"; "177"]
  = (Raise CancelledError, ["209"]).
Proof. reflexivity. Qed.

(** X10: when the fetch of the first enabled dataset returns (a value or
    [None]), no request is cancelled and every pacing delay runs to its
    end, the cycle completes: it asks for every enabled dataset and returns
    a snapshot, whatever errors the later datasets meet. *)
Theorem paced_cycle_completes_after_first_return net sleep d rest v l :
  (forall n id, no_cancellation (net n id) = true) ->
  (forall n, sleep n = Ok tt) ->
  _async_fetch_dataset net d [] = (Ok v, l) ->
  exists snapshot,
    cycle_paced net sleep (d :: rest) = (Ok snapshot, d :: rest).
Proof.
  intros Hnet Hsleep Hf. unfold cycle_paced.
  rewrite (update_data_paced_through _ sleep Hsleep).
  exact (CycleMore.cycle_completes_after_first_return net d rest v l Hnet Hf).
Qed.

Lemma paced_cycle_completes_after_first_return_witness :
  exists snapshot,
    cycle_paced (net_entry_then_status 500) sleep_through
      ("209" :: ["177"; "336"])
    = (Ok snapshot, "209" :: ["177"; "336"]).
Proof.
  apply (paced_cycle_completes_after_first_return
           (net_entry_then_status 500) sleep_through
           "209" ["177"; "336"] entry_blackout ["209"]).
  - intros [| n] id; reflexivity.
  - intros n. reflexivity.
  - reflexivity.
Defined.

End PacedSpec.

(** ** The callback with its write *)

Module CallbackSpec.
Import Sensor Fixtures Vocab2 Callback.



End CallbackSpec.
